(** * BadgeGenerator: a shallow embedding of [BadgeGenerator.py]

    The development follows the source file top-down: the string helpers
    ([sanitize_filename], [clean_employee_id]), the badge renderer
    ([generate_badge]), the single-record callback ([generate]), the batch
    job ([task] and its [process_row]) and the PDF compositor
    ([generate_badge_pdf]).

    Conventions.
    - A Python [str] is a [string]; each [ascii] stands for one code point
      below 256, and the character classes [str.strip] and [str.isdigit]
      use are the ones Python has on that range.
    - A Python [dict] with string keys is a [gmap string _];
      [d.update(e)] is [e ∪ d] (the union of stdpp keeps the left value).
    - The imaging, font and PDF libraries are opaque services: each call
      into them is a field of an environment record that says whether the
      call succeeds.
    - Lengths on the page (millimetres) are exact rationals. *)

From Stdlib Require Import QArith Ascii String.
From stdpp Require Import gmap strings list sorting pretty.

Local Open Scope string_scope.
Local Open Scope list_scope.

Set Warnings "-clear-no-such-hyp".

(** ** Python string primitives *)

Module Py.

(** [c.isspace()] for a code point below 256. *)
Definition isspace_char (c : ascii) : bool :=
  let n := N_of_ascii c in
  ((9 <=? n) && (n <=? 13) || (28 <=? n) && (n <=? 32)
   || (n =? 133) || (n =? 160))%N.

(** [c.isdigit()] for a code point below 256: the ten decimal digits
    and the superscripts two, three and one. *)
Definition isdigit_char (c : ascii) : bool :=
  let n := N_of_ascii c in
  ((48 <=? n) && (n <=? 57) || (n =? 178) || (n =? 179) || (n =? 185))%N.

Fixpoint all_chars (p : ascii → bool) (s : string) : bool :=
  match s with
  | "" => true
  | String c s' => p c && all_chars p s'
  end.

(** [s.isdigit()]: every character is a digit and there is at least one. *)
Definition isdigit (s : string) : bool :=
  match s with
  | "" => false
  | _ => all_chars isdigit_char s
  end.

Fixpoint lstrip (s : string) : string :=
  match s with
  | "" => ""
  | String c s' => if isspace_char c then lstrip s' else s
  end.

Fixpoint rstrip (s : string) : string :=
  match s with
  | "" => ""
  | String c s' =>
      match rstrip s' with
      | "" => if isspace_char c then "" else String c ""
      | r => String c r
      end
  end.

(** [s.strip()] *)
Definition strip (s : string) : string := rstrip (lstrip s).

(** [s.startswith(p)] *)
Definition startswith (s p : string) : bool := String.prefix p s.

(** [s.endswith(p)] *)
Fixpoint endswith (s p : string) : bool :=
  if String.eqb s p then true
  else match s with
       | "" => false
       | String _ s' => endswith s' p
       end.

(** [s[k:]] for [k >= 0] *)
Fixpoint slice_from (k : nat) (s : string) : string :=
  match k, s with
  | O, _ => s
  | S k', "" => ""
  | S k', String _ s' => slice_from k' s'
  end.

(** [s[:n]] for [n >= 0] *)
Fixpoint slice_to (n : nat) (s : string) : string :=
  match n, s with
  | O, _ => ""
  | S n', "" => ""
  | S n', String c s' => String c (slice_to n' s')
  end.

(** [s[:-k]] for [k > 0]: everything but the last [k] characters. *)
Definition slice_to_neg (k : nat) (s : string) : string :=
  slice_to (String.length s - k) s.

(** [s[a:-k]] for [a >= 0] and [k > 0]: the stop index is
    [max 0 (len s - k)], and the slice is empty when it is not after [a]. *)
Definition slice (a k : nat) (s : string) : string :=
  slice_to (String.length s - k - a) (slice_from a s).

(** [c in s] for a one-character string [c]. *)
Fixpoint contains_char (c : ascii) (s : string) : bool :=
  match s with
  | "" => false
  | String d s' => if Ascii.eqb d c then true else contains_char c s'
  end.

(** [s.split(c, 1)] for a one-character separator: the text before the
    first [c] and the text after it, or nothing when [c] does not occur
    (Python then returns the one-element list [[s]]). *)
Fixpoint split_once (c : ascii) (s : string) : option (string * string) :=
  match s with
  | "" => None
  | String d s' =>
      if Ascii.eqb d c then Some ("", s')
      else match split_once c s' with
           | Some (a, b) => Some (String d a, b)
           | None => None
           end
  end.

(** [s.replace(old, new)] for one-character [old] and [new]. *)
Fixpoint replace_char (old new : ascii) (s : string) : string :=
  match s with
  | "" => ""
  | String d s' =>
      String (if Ascii.eqb d old then new else d) (replace_char old new s')
  end.

(** [sep.join(l)] *)
Fixpoint join (sep : string) (l : list string) : string :=
  match l with
  | [] => ""
  | [x] => x
  | x :: l' => x +:+ sep +:+ join sep l'
  end.

End Py.

(** ** Module-level constants and string helpers *)

Definition OUTPUT_FOLDER : string := "Badge_output".
Definition DEFAULT_DPI : Q := 300%Q.

(** The double quote character (code 34). *)
Definition dquote : ascii := Ascii false true false false false true false false.

Definition illegal_chars : list ascii :=
  ["<"; ">"; ":"; dquote; "/"; "\"; "|"; "?"; "*"]%char.

(** [sanitize_filename]: the loop replaces one illegal character after the
    other over the whole name. *)
Definition sanitize_filename (filename : string) : string :=
  fold_left (λ name c, Py.replace_char c "_"%char name) illegal_chars filename.

Definition clean_employee_id (employee_id : string) : string :=
  if Py.endswith employee_id ".0" && Py.isdigit (Py.slice_to_neg 2 employee_id)
  then Py.slice_to_neg 2 employee_id
  else employee_id.

(** ** Values held by the data dictionaries

    The values a preset (parsed from JSON) or a caller puts into the
    dictionary handed to the renderer: text, integers, lists (positions,
    sizes, the list of text elements) and [None]. *)

#[warnings="-register-all"]
Inductive pyval : Type :=
| VNone
| VStr (s : string)
| VInt (z : Z)
| VList (l : list pyval).

Abbreviation dict := (gmap string pyval).

(** [d.update(e)]: the entries of [e] replace those of [d]. *)
Definition update (d e : dict) : dict := e ∪ d.

(** [d.get(k, dflt)] *)
Definition get (d : dict) (k : string) (dflt : pyval) : pyval :=
  default dflt (d !! k).

(** Truth value of a value in a condition. *)
Definition truthy (v : pyval) : bool :=
  match v with
  | VNone => false
  | VStr s => negb (String.eqb s "")
  | VInt z => negb (z =? 0)%Z
  | VList l => match l with [] => false | _ => true end
  end.

(** [len(v)]; [None] stands for the [TypeError] of a value without length. *)
Definition py_len (v : pyval) : option nat :=
  match v with
  | VStr s => Some (String.length s)
  | VList l => Some (length l)
  | _ => None
  end.

(** [' ' == v] *)
Definition is_space_str (v : pyval) : bool :=
  match v with
  | VStr s => String.eqb s " "
  | _ => false
  end.

Definition strs (l : list string) : pyval := VList (VStr <$> l).

(** ** The badge renderer: [generate_badge] *)

(** The reasons a render stops. The first four are the ones
    [generate_badge] handles itself: with [suppress_message] unset it queues
    a message box and returns, otherwise it raises an exception carrying the
    message. [Uncaught] is an exception none of its handlers catches; it
    holds the exception class. *)
Inductive failure : Type :=
| NameTooLong (name : pyval)
| BackgroundLoadError
| PhotoCompositionError
| FontNotFoundError
| Uncaught (exn : string).

(** The text of the name-too-long message for a name that is a string. *)
Definition name_too_long_message (name : string) : string :=
  "The name '" +:+ name +:+ "' is too long. " +:+
  "Please use spaces to separate first and last names or edit it manually.".

(** One [draw.text] call. *)
Record draw_op : Type := {
  d_element : string;
  d_position : pyval;
  d_text : pyval;
  d_font : pyval * pyval;
  d_color : pyval
}.

Inductive font_result : Type :=
| FontLoaded
| FontIOError
| FontError (exn : string).

(** The services the renderer calls. *)
Record Env : Type := {
  (** [os.makedirs(folder, exist_ok=True)] *)
  makedirs : string → bool;
  (** lines 110-111: open [data['background_img']] and convert it; the
      lookup is inside the [try], so a missing key fails here too *)
  open_background : option pyval → bool;
  (** lines 123-125: open, resize and paste the photo *)
  paste_photo : dict → bool;
  (** [ImageFont.truetype(font, int(size))] on the two values looked up *)
  truetype : pyval → pyval → font_result;
  (** lines 156-160 for one element *)
  draw_text : draw_op → bool;
  (** [img.save(output_filename, quality=100)], given the file's name in
      [OUTPUT_FOLDER]; a save that fails leaves no file *)
  save_image : string → bool
}.

(** How one call of [generate_badge] ends. [Saved] carries the name of the
    image file written in [OUTPUT_FOLDER] and the text drawn on it.
    [Shown] is the message box of the interactive path, [Raised] an
    exception leaving the function. *)
Inductive outcome : Type :=
| Saved (file : string) (drawn : list draw_op)
| Shown (f : failure)
| Raised (f : failure).

(** The image files a call has written. *)
Definition files_written (o : outcome) : list string :=
  match o with
  | Saved file _ => [file]
  | _ => []
  end.

Definition report (suppress_message : bool) (f : failure) : outcome :=
  if suppress_message then Raised f else Shown f.

Definition four_fields : list string :=
  ["name"; "id"; "department"; "position"].
Definition five_fields : list string :=
  ["first_name"; "last_name"; "id"; "department"; "position"].

(** Lines 83-106: name splitting. The result is the updated dictionary, or
    the failure that ends the call. *)
Definition handle_name (data : dict) : failure + dict :=
  let name := get data "name" (VStr "") in
  let char_limit := get data "name_char_limit" (VInt 10) in
  match py_len name, char_limit with
  | Some n, VInt limit =>
      if (Z.of_nat n >? limit)%Z then
        match name with
        | VStr s =>
            if Py.contains_char " " s then
              match Py.split_once " " s with
              | Some (first, last) =>
                  inr (update data
                         {[ "first_name" := VStr first;
                            "last_name" := VStr last;
                            "text_elements" := strs five_fields ]})
              | None => inl (Uncaught "ValueError")
              end
            else inl (NameTooLong name)
        | VList l =>
            if existsb is_space_str l then inl (Uncaught "AttributeError")
            else inl (NameTooLong name)
        | _ => inl (Uncaught "TypeError")
        end
      else inr (update data {[ "text_elements" := strs four_fields ]})
  | _, _ => inl (Uncaught "TypeError")
  end.

(** [data['text_elements']] as the list of keys the loops run over. *)
Definition text_elements (data : dict) : list string :=
  match data !! "text_elements" with
  | Some (VList l) =>
      omap (λ v, match v with VStr s => Some s | _ => None end) l
  | _ => []
  end.

(** Line 139 for one element: the two lookups, then
    [ImageFont.truetype]. An [IOError] is the one exception the handler of
    line 146 catches. *)
Definition load_font (env : Env) (data : dict) (key : string)
  : failure + (pyval * pyval) :=
  match data !! ("font_" +:+ key), data !! (key +:+ "_size") with
  | Some font, Some size =>
      match truetype env font size with
      | FontLoaded => inr (font, size)
      | FontIOError => inl FontNotFoundError
      | FontError exn => inl (Uncaught exn)
      end
  | _, _ => inl (Uncaught "KeyError")
  end.

(** Lines 137-152: the fonts are loaded for every element before anything
    is drawn. [inl] is the first failure, [inr] the fonts in order. *)
Fixpoint load_fonts (env : Env) (data : dict) (keys : list string)
  : failure + list (pyval * pyval) :=
  match keys with
  | [] => inr []
  | key :: keys' =>
      match load_font env data key with
      | inl f => inl f
      | inr font =>
          match load_fonts env data keys' with
          | inl f => inl f
          | inr fonts => inr (font :: fonts)
          end
      end
  end.

Definition draw_op_of (data : dict) (element : string) (font : pyval * pyval)
  : draw_op :=
  {| d_element := element;
     d_position := get data (element +:+ "_position") (VList [VInt 0; VInt 0]);
     d_text := get data element (VStr "");
     d_font := font;
     d_color := get data (element +:+ "_color") (VStr "black") |}.

(** Lines 155-160: the drawing loop; [None] when a [draw.text] call raises. *)
Fixpoint draw_all (env : Env) (ops : list draw_op) : option (list draw_op) :=
  match ops with
  | [] => Some []
  | op :: ops' =>
      if draw_text env op then
        match draw_all env ops' with
        | Some done => Some (op :: done)
        | None => None
        end
      else None
  end.

(** Lines 163-166: the name of the output file inside [OUTPUT_FOLDER];
    [None] when [data['id']] is not a string (no [startswith]). *)
Definition output_name (side : string) (data : dict) : option string :=
  match get data "id" (VStr "") with
  | VStr employee_id =>
      let name_for_filename :=
        if Py.startswith employee_id "No." then Py.slice_from 4 employee_id
        else employee_id in
      Some ("badge_" +:+ side +:+ "_" +:+
            sanitize_filename name_for_filename +:+ ".png")
  | _ => None
  end.

(** Lines 108-176, on the dictionary the name step has produced. *)
Definition render (env : Env) (side : string) (data : dict)
    (suppress_message : bool) : outcome :=
  if negb (open_background env (data !! "background_img")) then
    report suppress_message BackgroundLoadError
  else if String.eqb side "front" && truthy (get data "photo_img" VNone)
          && negb (paste_photo env data) then
    report suppress_message PhotoCompositionError
  else
    match load_fonts env data (text_elements data) with
    | inl (Uncaught exn) => Raised (Uncaught exn)
    | inl f => report suppress_message f
    | inr fonts =>
        let ops := zip_with (draw_op_of data) (text_elements data) fonts in
        match draw_all env ops with
        | None => Raised (Uncaught "draw.text")
        | Some drawn =>
            match output_name side data with
            | None => Raised (Uncaught "AttributeError")
            | Some file =>
                if save_image env file then Saved file drawn
                else Raised (Uncaught "OSError")
            end
        end
    end.

Definition generate_badge (env : Env) (side : string) (data : dict)
    (suppress_message : bool) : outcome :=
  if negb (makedirs env OUTPUT_FOLDER) then Raised (Uncaught "OSError")
  else
    match handle_name data with
    | inl (Uncaught exn) => Raised (Uncaught exn)
    | inl f => report suppress_message f
    | inr data' => render env side data' suppress_message
    end.

(** ** The single-record callback: [generate] (lines 343-363) *)

(** A preset holds one dictionary per side. *)
Abbreviation preset := (gmap string (gmap string pyval)).

(** The text of the entry widgets of one side frame. [photo_entry] is the
    photo entry, which only the front frame has. *)
Record entries : Type := {
  name_entry : string;
  id_entry : string;
  department_entry : string;
  position_entry : string;
  photo_entry : option string
}.

(** The dictionary built from the entries (lines 352-357). [upper] stands
    for [str.upper]. *)
Definition user_input (upper : string → string) (e : entries) : dict :=
  {[ "name" := VStr (Py.strip (name_entry e));
     "id" := VStr ("No. " +:+ upper (Py.strip (id_entry e)));
     "department" := VStr (Py.strip (department_entry e));
     "position" := VStr (Py.strip (position_entry e)) ]}.

(** The record [generate] hands to [generate_badge]; [None] is the
    [KeyError] of a preset or side that does not exist. *)
Definition generate (upper : string → string) (presets : gmap string preset)
    (preset_name side : string) (e : entries) : option dict :=
  p ← presets !! preset_name;
  side_preset ← p !! side;
  let data := update side_preset (user_input upper e) in
  Some (match photo_entry e with
        | Some photo =>
            if String.eqb side "front"
            then <["photo_img" := VStr (Py.strip photo)]> data
            else data
        | None => data
        end).

(** ** The batch job: [task] of [batch_generate_badges] (lines 389-542) *)

(** A spreadsheet cell as the job sees it: missing ([NaN]), or a value,
    kept as the text [str(value)] gives. *)
Inductive cell : Type :=
| NaN
| Value (text : string).

(** [pd.isna(value)] *)
Definition isna (c : cell) : bool :=
  match c with
  | NaN => true
  | Value _ => false
  end.

(** [str(value)] *)
Definition str (c : cell) : string :=
  match c with
  | NaN => "nan"
  | Value text => text
  end.

(** A row is read by column label. The job reads the seven required labels
    only, and only once it has checked that the sheet has them. *)
Definition Row : Type := string → cell.

Record DataFrame : Type := {
  columns : list string;
  rows : list Row
}.

Definition required_columns : list string :=
  ["Local Name"; "English Name"; "Employee Number"; "Department";
   "Position"; "Department_en"; "Position_en"].

(** One entry of the [errors] list. The entries whose text the job fixes
    are kept as text; the entry of a failed render embeds the text of the
    exception and is kept structured. *)
Inductive log_entry : Type :=
| Line (text : string)
| RenderFailure (row_number : nat) (employee_id : string) (f : failure).

Inductive notification : Type :=
| ShowError (text : string)
| ShowInfo (text : string).

(** What one run does: the lines handed to [write_errors_to_log] (if it is
    called), the message box queued, and the badge files written. *)
Record batch_outcome : Type := {
  log : option (list log_entry);
  notice : notification;
  rendered : list string
}.

Definition missing_columns (df : DataFrame) : list string :=
  filter (λ col, col ∉ columns df) required_columns.

Definition missing_columns_message (missing : list string) : string :=
  "The Excel file is missing the following required columns: " +:+
  Py.join ", " missing.

Definition preset_missing_message (preset_name : string) : string :=
  "The selected preset '" +:+ preset_name +:+ "' does not exist.".

(** Line 427: [df['Employee Number'].astype(str).str.strip()] *)
Definition employee_numbers (df : DataFrame) : list string :=
  (λ row : Row, Py.strip (str (row "Employee Number"))) <$> rows df.

(** [s[s.duplicated(keep=False)]]: the values that occur more than once,
    every occurrence kept. *)
Definition duplicated_keep_false (l : list string) : list string :=
  filter (λ x, 1 < length (filter (λ y, y = x) l)) l.

(** [.unique()]: first occurrences, in order. *)
Fixpoint unique_from (seen l : list string) : list string :=
  match l with
  | [] => []
  | x :: l' =>
      if bool_decide (x ∈ seen) then unique_from seen l'
      else x :: unique_from (x :: seen) l'
  end.
Definition unique (l : list string) : list string := unique_from [] l.

(** Line 428 *)
Definition duplicates (df : DataFrame) : list string :=
  unique (duplicated_keep_false (employee_numbers df)).

Definition duplicate_message (dups : list string) : string :=
  "Duplicate Employee Numbers found: " +:+ Py.join ", " dups.

(** Line 473: the employee number of a row, trimmed and cleaned. *)
Definition normalize (employee_number : string) : string :=
  clean_employee_id (Py.strip employee_number).

(** Line 435 *)
Definition is_missing (value : cell) : bool :=
  isna value || String.eqb (Py.strip (str value)) "".

(** Lines 450-464 *)
Definition missing_fields (row : Row) : list string :=
  filter (λ field, is_missing (row field) = true) required_columns.

(** [index + 2] in the row messages *)
Definition row_number (index : nat) : nat := index + 2.

Definition missing_fields_message (index : nat) (missing : list string)
  : string :=
  "Row " +:+ pretty (row_number index) +:+ ": Missing fields - " +:+
  Py.join ", " missing +:+ ".".

Definition duplicated_message (index : nat) (employee_id : string) : string :=
  "Row " +:+ pretty (row_number index) +:+ ": Employee Number '" +:+
  employee_id +:+ "' is duplicated.".

(** Lines 492-497 and 503-508 *)
Definition row_data (name employee_id department position : string) : dict :=
  {[ "name" := VStr name;
     "id" := VStr ("No. " +:+ employee_id);
     "department" := VStr department;
     "position" := VStr position ]}.

Definition front_data (p : preset) (row : Row) (employee_id : string)
  : option dict :=
  front_preset ← p !! "front";
  Some (update (row_data (Py.strip (str (row "Local Name"))) employee_id
                  (Py.strip (str (row "Department")))
                  (Py.strip (str (row "Position"))))
               front_preset).

Definition back_data (p : preset) (row : Row) (employee_id : string)
  : option dict :=
  back_preset ← p !! "back";
  Some (update (row_data (Py.strip (str (row "English Name"))) employee_id
                  (Py.strip (str (row "Department_en")))
                  (Py.strip (str (row "Position_en"))))
               back_preset).

(** A render inside [process_row]: [suppress_message] is set, so every
    failure is an exception, which the handler of line 512 turns into an
    entry of the error list. *)
Definition render_side (env : Env) (side : string) (data : option dict)
  : failure + string :=
  match data with
  | None => inl (Uncaught "KeyError")
  | Some d =>
      match generate_badge env side d true with
      | Saved file _ => inr file
      | Shown f | Raised f => inl f
      end
  end.

(** [process_row] (lines 438-515): the entries it appends to [errors] and
    the badge files it writes. *)
Definition process_row (env : Env) (p : preset) (dups : list string)
    (index : nat) (row : Row) : list log_entry * list string :=
  let missing := missing_fields row in
  if negb (bool_decide (missing = [])) then
    ([Line (missing_fields_message index missing)], [])
  else
    let employee_id := normalize (str (row "Employee Number")) in
    if bool_decide (employee_id ∈ dups) then
      ([Line (duplicated_message index employee_id)], [])
    else
      match render_side env "front" (front_data p row employee_id) with
      | inl f => ([RenderFailure (row_number index) employee_id f], [])
      | inr front_file =>
          match render_side env "back" (back_data p row employee_id) with
          | inl f =>
              ([RenderFailure (row_number index) employee_id f], [front_file])
          | inr back_file => ([], [front_file; back_file])
          end
      end.

(** The line feed character (code 10). *)
Definition newline : ascii := Ascii false true false true false false false false.

Definition batch_errors_message (error_log_path : string) : string :=
  "Errors were encountered during batch generation. " +:+
  "Please check the error log at:" +:+ String newline error_log_path.

Definition success_message : string :=
  "All badges have been successfully generated and saved in the " +:+
  "'Badge_output' folder.".

(** The entries of [errors] at the end of a run. *)
Definition logged (o : batch_outcome) : list log_entry := default [] (log o).

(** The rows are handed to a pool of five workers; the model runs them in
    the order of the sheet, which is one of the schedules. *)
Definition task (env : Env) (presets : gmap string preset)
    (preset_name error_log_path : string) (df : DataFrame) : batch_outcome :=
  let missing := missing_columns df in
  if negb (bool_decide (missing = [])) then
    {| log := Some [Line (missing_columns_message missing)];
       notice := ShowError (missing_columns_message missing);
       rendered := [] |}
  else
    match presets !! preset_name with
    | None =>
        {| log := Some [Line (preset_missing_message preset_name)];
           notice := ShowError (preset_missing_message preset_name);
           rendered := [] |}
    | Some p =>
        let dups := duplicates df in
        let errors0 :=
          if bool_decide (dups = []) then []
          else [Line (duplicate_message dups)] in
        let results := imap (process_row env p dups) (rows df) in
        let errors := errors0 ++ mjoin (fst <$> results) in
        let files := mjoin (snd <$> results) in
        if bool_decide (errors = []) then
          {| log := None; notice := ShowInfo success_message;
             rendered := files |}
        else
          {| log := Some errors;
             notice := ShowError (batch_errors_message error_log_path);
             rendered := files |}
    end.

(** ** The PDF compositor: [generate_badge_pdf] (lines 178-264) *)

(** The keys of [config.json] the function reads (lines 186-195). *)
Record pdf_config : Type := {
  badge_folder : string;
  badge_front_prefix : string;
  badge_back_prefix : string;
  output_pdf : string;
  group_spacing_x : Q;
  group_spacing_y : Q;
  paper_width : Q;
  paper_height : Q;
  start_y_position : Q;
  badge_width : Q
}.

(** What [Image.open] reports for a file: width and height in pixels and
    the horizontal resolution of [img.info['dpi']], when the file has one. *)
Record image_info : Type := {
  img_width : Z;
  img_height : Z;
  img_dpi : option Q
}.

(** One [pdf.image] call: a file of the badge folder at a position and
    size in millimetres. *)
Record placement : Type := {
  pl_file : string;
  pl_x : Q;
  pl_y : Q;
  pl_w : Q;
  pl_h : Q
}.

Record PdfEnv : Type := {
  (** [Image.open] on a file of the badge folder; [None] when it raises *)
  open_image : string → option image_info;
  (** [pdf.image]; [false] when it raises *)
  pdf_image : placement → bool;
  (** [pdf.output]; [false] when it raises *)
  pdf_output : string → bool
}.

Inductive pdf_error : Type :=
| FolderNotFound (folder : string)
| FrontInsertFailed (file : string)
| BackInsertFailed (file : string)
| SaveFailed (path : string).

Definition mm_per_inch : Q := 254 # 10.

(** [get_image_dimensions]; [None] is the division by a zero resolution. *)
Definition get_image_dimensions (info : image_info) : option (Q * Q) :=
  let dpi := default DEFAULT_DPI (img_dpi info) in
  if Qeq_bool dpi 0 then None
  else Some (inject_Z (img_width info) / dpi * mm_per_inch,
             inject_Z (img_height info) / dpi * mm_per_inch)%Q.

(** Lines 210-211 *)
Definition files_with_prefix (prefix : string) (files : list string)
  : list string :=
  merge_sort String.le (filter (λ f, Py.startswith f prefix = true) files).

(** [f[len(prefix):-4]] *)
Definition join_key (prefix f : string) : string :=
  Py.slice (String.length prefix) 4 f.

(** Lines 214-215: a dictionary comprehension; a later file replaces an
    earlier one with the same key. *)
Definition files_dict (prefix : string) (sorted_files : list string)
  : gmap string string :=
  foldl (λ d f, <[join_key prefix f := f]> d) ∅ sorted_files.

(** Line 218 *)
Definition all_keys (front_files_dict back_files_dict : gmap string string)
  : list string :=
  merge_sort String.le
    (elements (dom front_files_dict ∪ dom back_files_dict : gset string)).

(** [range(0, stop, step)] for a positive [step] *)
Definition range_step (stop step : nat) : list nat :=
  (λ k, k * step) <$> seq 0 ((stop + step - 1) / step).

(** The inner loop header with its [break] (lines 223-225): the slots of
    the page that starts at key [i]. *)
Fixpoint slots_until (n i : nat) (js : list nat) : list nat :=
  match js with
  | [] => []
  | j :: js' => if (n <=? i + j)%nat then [] else j :: slots_until n i js'
  end.

(** Line 231 *)
Definition x_pos (cfg : pdf_config) (j : nat) : Q :=
  ((badge_width cfg + group_spacing_x cfg) * inject_Z (Z.of_nat j)
   + group_spacing_x cfg)%Q.

(** The truth value of [d.get(key)]: a file name that is not empty. *)
Definition found (d : gmap string string) (key : string) : option string :=
  match d !! key with
  | Some f => if String.eqb f "" then None else Some f
  | None => None
  end.

(** One [get_image_dimensions] and [pdf.image] pair (lines 238-239 and
    248-249): the placement made, or nothing when either raises. *)
Definition insert_image (env : PdfEnv) (file : string) (x y : Q)
  : option placement :=
  info ← open_image env file;
  '(w, h) ← get_image_dimensions info;
  let pl := {| pl_file := file; pl_x := x; pl_y := y; pl_w := w; pl_h := h |} in
  if pdf_image env pl then Some pl else None.

(** Lines 227-251: the images placed for one key in slot [j]. *)
Definition place_key (env : PdfEnv) (cfg : pdf_config)
    (front_files_dict back_files_dict : gmap string string)
    (j : nat) (key : string) : pdf_error + list placement :=
  let x := x_pos cfg j in
  let y := start_y_position cfg in
  match found front_files_dict key with
  | Some front =>
      match insert_image env front x y with
      | None => inl (FrontInsertFailed front)
      | Some pf =>
          let y' := (y + (pl_h pf + group_spacing_y cfg))%Q in
          match found back_files_dict key with
          | Some back =>
              match insert_image env back x y' with
              | None => inl (BackInsertFailed back)
              | Some pb => inr [pf; pb]
              end
          | None => inr [pf]
          end
      end
  | None =>
      match found back_files_dict key with
      | Some back =>
          match insert_image env back x y with
          | None => inl (BackInsertFailed back)
          | Some pb => inr [pb]
          end
      | None => inr []
      end
  end.

(** The first failure of a list of steps, or all their results. *)
Fixpoint sequence {E A : Type} (l : list (E + A)) : E + list A :=
  match l with
  | [] => inr []
  | inl e :: _ => inl e
  | inr a :: l' =>
      match sequence l' with
      | inl e => inl e
      | inr r => inr (a :: r)
      end
  end.

(** The keys of the page that starts at index [i], each with its slot. *)
Definition page_slots (keys : list string) (i : nat) : list (nat * string) :=
  omap (λ j, (λ key, (j, key)) <$> keys !! (i + j))
       (slots_until (length keys) i [0; 1; 2]).

(** One iteration of the outer loop (lines 221-251): a page. *)
Definition make_page (env : PdfEnv) (cfg : pdf_config)
    (front_files_dict back_files_dict : gmap string string)
    (keys : list string) (i : nat) : pdf_error + list placement :=
  match sequence ((λ '(j, key),
                     place_key env cfg front_files_dict back_files_dict j key)
                  <$> page_slots keys i) with
  | inl e => inl e
  | inr groups => inr (mjoin groups)
  end.

(** The document: its pages, each the list of images placed on it.
    [listing] is the result of [os.listdir(badge_folder)], [None] when the
    folder does not exist. *)
Definition generate_badge_pdf (env : PdfEnv) (cfg : pdf_config)
    (listing : option (list string)) : pdf_error + list (list placement) :=
  match listing with
  | None => inl (FolderNotFound (badge_folder cfg))
  | Some files =>
      let front_files := files_with_prefix (badge_front_prefix cfg) files in
      let back_files := files_with_prefix (badge_back_prefix cfg) files in
      let front_files_dict := files_dict (badge_front_prefix cfg) front_files in
      let back_files_dict := files_dict (badge_back_prefix cfg) back_files in
      let keys := all_keys front_files_dict back_files_dict in
      match sequence (make_page env cfg front_files_dict back_files_dict keys
                      <$> range_step (length keys) 3) with
      | inl e => inl e
      | inr pages =>
          if pdf_output env (output_pdf cfg) then inr pages
          else inl (SaveFailed (output_pdf cfg))
      end
  end.

(** ** Sample data

    A preset, an environment in which every service succeeds except the
    loading of one font file, and a sheet, for the examples below. *)

Definition sample_side (background : string) : dict :=
  list_to_map
    [ ("background_img", VStr background);
      ("name_char_limit", VInt 10);
      ("font_name", VStr "regular.ttf"); ("name_size", VInt 40);
      ("font_first_name", VStr "regular.ttf"); ("first_name_size", VInt 40);
      ("font_last_name", VStr "regular.ttf"); ("last_name_size", VInt 40);
      ("font_id", VStr "regular.ttf"); ("id_size", VInt 30);
      ("font_department", VStr "regular.ttf"); ("department_size", VInt 30);
      ("font_position", VStr "regular.ttf"); ("position_size", VInt 30) ].

Definition sample_preset : preset :=
  {[ "front" := sample_side "front.png"; "back" := sample_side "back.png" ]}.

Definition sample_presets : gmap string preset :=
  {[ "default" := sample_preset ]}.

Definition sample_env : Env :=
  {| makedirs := λ _, true;
     open_background := λ v, match v with Some _ => true | None => false end;
     paste_photo := λ _, true;
     truetype := λ font _,
       match font with
       | VStr f => if String.eqb f "missing.ttf" then FontIOError else FontLoaded
       | _ => FontError "TypeError"
       end;
     draw_text := λ _, true;
     save_image := λ _, true |}.

Definition sample_row (local_name english_name number : string) : Row :=
  λ col,
    if String.eqb col "Local Name" then Value local_name
    else if String.eqb col "English Name" then Value english_name
    else if String.eqb col "Employee Number" then Value number
    else if String.eqb col "Department" then Value "Sales"
    else if String.eqb col "Position" then Value "Clerk"
    else if String.eqb col "Department_en" then Value "Sales"
    else if String.eqb col "Position_en" then Value "Clerk"
    else NaN.

(** Two rows with the same employee number, typed as a number in the
    sheet and so read with a trailing [.0]. *)
Definition sample_twice : DataFrame :=
  {| columns := required_columns;
     rows := [ sample_row "Li Wei" "Wei Li" "1023.0";
               sample_row "Zhang San" "San Zhang" "1023.0" ] |}.

(** The same number, once as ["1023.0"] and once as ["1023"]. *)
Definition sample_mixed : DataFrame :=
  {| columns := required_columns;
     rows := [ sample_row "Li Wei" "Wei Li" "1023.0";
               sample_row "Zhang San" "San Zhang" "1023" ] |}.

(** The same number twice, with no [.0]. *)
Definition sample_plain : DataFrame :=
  {| columns := required_columns;
     rows := [ sample_row "Li Wei" "Wei Li" "1023";
               sample_row "Zhang San" "San Zhang" " 1023 " ] |}.

(** A preset that has a [name] of its own on both sides. *)
Definition named_preset : preset :=
  {[ "front" := <["name" := VStr "Visitor"]> (sample_side "front.png");
     "back" := <["name" := VStr "Visitor"]> (sample_side "back.png") ]}.

Definition sample_entries : entries :=
  {| name_entry := " Li Wei "; id_entry := "a17"; department_entry := "Sales";
     position_entry := "Clerk"; photo_entry := Some "" |}.

(** A layout for the compositor, and an imaging service that reads every
    file as 600 by 900 pixels with no resolution recorded. *)
Definition sample_config : pdf_config :=
  {| badge_folder := "Badge_output";
     badge_front_prefix := "badge_front_";
     badge_back_prefix := "badge_back_";
     output_pdf := "print/badges.pdf";
     group_spacing_x := 5; group_spacing_y := 3;
     paper_width := 210; paper_height := 297;
     start_y_position := 10; badge_width := 54 |}.

Definition sample_pdf_env : PdfEnv :=
  {| open_image := λ _,
       Some {| img_width := 600; img_height := 900; img_dpi := None |};
     pdf_image := λ _, true;
     pdf_output := λ _, true |}.

Definition sample_front_dict : gmap string string :=
  {[ "1023" := "badge_front_1023.png" ]}.
Definition sample_back_dict : gmap string string :=
  {[ "1023" := "badge_back_1023.png"; "1024" := "badge_back_1024.png" ]}.

(** Two rows with numbers of their own. *)
Definition sample_clean : DataFrame :=
  {| columns := required_columns;
     rows := [ sample_row "Li Wei" "Wei Li" "1023";
               sample_row "Zhang San" "San Zhang" "1024.0" ] |}.

(** An imaging service that cannot open one of the files. *)
Definition broken_pdf_env : PdfEnv :=
  {| open_image := λ file,
       if String.eqb file "badge_back_2.png" then None
       else Some {| img_width := 600; img_height := 900; img_dpi := None |};
     pdf_image := λ _, true;
     pdf_output := λ _, true |}.

(** ** The naming rule in the words of the specification

    Used to compare the specification's wording with [output_name]. *)

Definition is_illegal (c : ascii) : bool := bool_decide (c ∈ illegal_chars).

(** The per-character substitution: an illegal character becomes an
    underscore, any other character stays. *)
Definition sanitize_char (c : ascii) : ascii :=
  if is_illegal c then "_"%char else c.

Fixpoint map_chars (f : ascii → ascii) (s : string) : string :=
  match s with
  | "" => ""
  | String c s' => String (f c) (map_chars f s')
  end.

(** Removing a literal prefix: the text after [p] when [s] starts with [p],
    and [s] itself otherwise. *)
Definition strip_prefix (p s : string) : string :=
  if Py.startswith s p then Py.slice_from (String.length p) s else s.

(** The file name the specification's wording gives: strip the literal
    prefix [No.], substitute the illegal characters. *)
Definition spec_output_name (side identifier : string) : string :=
  "badge_" +:+ side +:+ "_" +:+
  map_chars sanitize_char (strip_prefix "No." identifier) +:+ ".png".

(** * Properties *)

(** ** Strings *)

Module PyFacts.
Import Py.

Lemma append_cons c a p : String c a +:+ p = String c (a +:+ p).
Proof. reflexivity. Qed.

Lemma append_nil_l p : "" +:+ p = p.
Proof. reflexivity. Qed.

Lemma endswith_append a p : endswith (a +:+ p) p = true.
Proof.
  induction a as [|c a IH].
  - rewrite append_nil_l. destruct p; simpl; [done|].
    by rewrite Ascii.eqb_refl, String.eqb_refl.
  - rewrite append_cons. cbn [endswith].
    destruct (String.eqb _ _); [done|]. exact IH.
Qed.

Lemma endswith_inv s p : endswith s p = true → ∃ a, s = a +:+ p.
Proof.
  induction s as [|c s IH]; cbn [endswith].
  - destruct p; [by exists ""|done].
  - destruct (String.eqb (String c s) p) eqn:E.
    + apply String.eqb_eq in E as <-. by exists "".
    + intros [a ->]%IH. by exists (String c a).
Qed.

Lemma slice_to_length_append a p : slice_to (String.length a) (a +:+ p) = a.
Proof.
  induction a as [|c a IH]; [by destruct p|].
  rewrite append_cons. simpl. by rewrite IH.
Qed.

Lemma length_append a p :
  String.length (a +:+ p) = String.length a + String.length p.
Proof. induction a as [|c a IH]; [done|]. rewrite append_cons. simpl. lia. Qed.

Lemma slice_to_neg_append a p :
  slice_to_neg (String.length p) (a +:+ p) = a.
Proof.
  unfold slice_to_neg. rewrite length_append.
  replace (_ + _ - _) with (String.length a) by lia.
  apply slice_to_length_append.
Qed.

Lemma all_chars_append q a p :
  all_chars q (a +:+ p) = all_chars q a && all_chars q p.
Proof.
  induction a as [|c a IH]; [done|].
  rewrite append_cons. simpl. rewrite IH. by destruct (q c).
Qed.

Lemma isdigit_all_chars d : isdigit d = true → all_chars isdigit_char d = true.
Proof. by destruct d. Qed.

(** A string of digits does not end in [".0"]: the dot is not a digit. *)
Lemma isdigit_not_endswith_dot0 d : isdigit d = true → endswith d ".0" = false.
Proof.
  intros Hd%isdigit_all_chars.
  destruct (endswith d ".0") eqn:E; [|done].
  apply endswith_inv in E as [a ->].
  rewrite all_chars_append in Hd. apply andb_true_iff in Hd as [_ Hd].
  discriminate Hd.
Qed.

Lemma rstrip_idemp s : rstrip (rstrip s) = rstrip s.
Proof.
  induction s as [|c s IH]; [done|]. simpl.
  destruct (rstrip s) as [|c' r] eqn:E.
  - destruct (isspace_char c) eqn:Ec; [done|]. simpl. by rewrite Ec.
  - simpl in *. by rewrite IH.
Qed.

(** The first character of a string survives [rstrip] unless it is a
    space. *)
Lemma rstrip_head c s :
  isspace_char c = false → ∃ r, rstrip (String c s) = String c r.
Proof.
  intros Hc. simpl. destruct (rstrip s); rewrite ?Hc; eauto.
Qed.

Lemma lstrip_head s :
  lstrip s = "" ∨ ∃ c r, lstrip s = String c r ∧ isspace_char c = false.
Proof.
  induction s as [|c s IH]; [by left|]. simpl.
  destruct (isspace_char c) eqn:Ec; [done|]. right. eauto.
Qed.

Lemma strip_idemp s : strip (strip s) = strip s.
Proof.
  unfold strip. destruct (lstrip_head s) as [->|(c & r & -> & Hc)]; [done|].
  destruct (rstrip_head c r Hc) as [r' E]. rewrite E.
  simpl lstrip. rewrite Hc, <- E. apply rstrip_idemp.
Qed.

Lemma rstrip_no_space s :
  all_chars (λ c, negb (isspace_char c)) s = true → rstrip s = s.
Proof.
  induction s as [|c s IH]; [done|]. simpl.
  intros [Hc Hs]%andb_true_iff. rewrite (IH Hs).
  apply negb_true_iff in Hc. rewrite Hc. by destruct s.
Qed.

Lemma strip_no_space s :
  all_chars (λ c, negb (isspace_char c)) s = true → strip s = s.
Proof.
  intros H. unfold strip. destruct s as [|c s]; [done|].
  pose proof H as [Hc _]%andb_true_iff. apply negb_true_iff in Hc.
  simpl lstrip. rewrite Hc. by apply rstrip_no_space.
Qed.

Lemma isdigit_char_not_space c : isdigit_char c = true → isspace_char c = false.
Proof.
  unfold isdigit_char, isspace_char. generalize (N_of_ascii c). intros n.
  rewrite !orb_true_iff, !andb_true_iff, !N.leb_le, !N.eqb_eq. intros H.
  apply not_true_is_false.
  rewrite !orb_true_iff, !andb_true_iff, !N.leb_le, !N.eqb_eq. lia.
Qed.

Lemma strip_digits d : isdigit d = true → strip d = d.
Proof.
  intros Hd%isdigit_all_chars. apply strip_no_space.
  induction d as [|c d IH]; [done|]. simpl in *.
  apply andb_true_iff in Hd as [Hc Hd].
  by rewrite (isdigit_char_not_space c Hc), IH.
Qed.

Lemma contains_char_false_split c s :
  contains_char c s = false → split_once c s = None.
Proof.
  induction s as [|d s IH]; [done|]. simpl.
  destruct (Ascii.eqb d c); [done|]. by intros ->%IH.
Qed.

(** [split_once] cuts at the first occurrence of the separator. *)
Lemma split_once_spec c s :
  contains_char c s = true →
  ∃ a b, split_once c s = Some (a, b)
         ∧ s = a +:+ String c b ∧ contains_char c a = false.
Proof.
  induction s as [|d s IH]; [done|]. simpl.
  destruct (Ascii.eqb d c) eqn:E.
  - apply Ascii.eqb_eq in E as ->. intros _. by exists "", s.
  - intros (a & b & -> & -> & Ha)%IH. exists (String d a), b.
    split_and!; [done..|]. simpl. by rewrite E.
Qed.

End PyFacts.

(** ** Identifier normalization: [clean_employee_id] *)

Section clean_employee_id.
Import Py PyFacts.

Lemma clean_employee_id_strips d :
  isdigit d = true → clean_employee_id (d +:+ ".0") = d.
Proof.
  intros Hd. unfold clean_employee_id.
  rewrite endswith_append.
  change 2 with (String.length ".0"). rewrite slice_to_neg_append.
  by rewrite Hd.
Qed.

Lemma clean_employee_id_cases s :
  clean_employee_id s = s
  ∨ (isdigit (clean_employee_id s) = true
     ∧ s = clean_employee_id s +:+ ".0").
Proof.
  unfold clean_employee_id.
  destruct (endswith s ".0") eqn:E; [|by left].
  apply endswith_inv in E as [a ->].
  change 2 with (String.length ".0"). rewrite slice_to_neg_append.
  destruct (isdigit a) eqn:Ha; simpl.
  - right. by split.
  - by left.
Qed.

Lemma clean_employee_id_digits d :
  isdigit d = true → clean_employee_id d = d.
Proof.
  intros Hd. unfold clean_employee_id.
  by rewrite (isdigit_not_endswith_dot0 d Hd).
Qed.

Lemma clean_employee_id_idemp s :
  clean_employee_id (clean_employee_id s) = clean_employee_id s.
Proof.
  destruct (clean_employee_id_cases s) as [E|[Hd _]].
  - by rewrite !E.
  - by apply clean_employee_id_digits.
Qed.

Lemma normalize_idemp s : normalize (normalize s) = normalize s.
Proof.
  unfold normalize.
  destruct (clean_employee_id_cases (strip s)) as [E|[Hd _]].
  - by rewrite E, strip_idemp, E.
  - rewrite (strip_digits _ Hd). by apply clean_employee_id_digits.
Qed.

(** C9. Normalizing an identifier twice gives what normalizing it once
    gives, for [clean_employee_id] alone and together with the trimming
    of line 473; ["1023.0"] and ["1023"] both become ["1023"]; the
    suffix [.0] is removed exactly when what precedes it is a non-empty
    run of digits, and every other value is returned unchanged. *)
Theorem C9_normalization_idempotent :
  (∀ s, clean_employee_id (clean_employee_id s) = clean_employee_id s)
  ∧ (∀ s, normalize (normalize s) = normalize s)
  ∧ clean_employee_id "1023.0" = "1023"
  ∧ clean_employee_id "1023" = "1023"
  ∧ (∀ d, isdigit d = true → clean_employee_id (d +:+ ".0") = d)
  ∧ (∀ s, (∀ d, isdigit d = true → s ≠ d +:+ ".0") →
          clean_employee_id s = s).
Proof.
  split_and!.
  - apply clean_employee_id_idemp.
  - apply normalize_idemp.
  - reflexivity.
  - reflexivity.
  - apply clean_employee_id_strips.
  - intros s Hs. destruct (clean_employee_id_cases s) as [E|[Hd E]]; [done|].
    by destruct (Hs _ Hd).
Qed.

End clean_employee_id.

(** ** The renderer *)

Section renderer.
Import Py PyFacts.

Lemma report_not_saved sup f file drawn : report sup f ≠ Saved file drawn.
Proof. by destruct sup. Qed.

Lemma files_written_report sup f : files_written (report sup f) = [].
Proof. by destruct sup. Qed.

(** What a successful [render] went through. *)
Lemma render_saved env side data sup file drawn :
  render env side data sup = Saved file drawn →
  ∃ fonts,
    load_fonts env data (text_elements data) = inr fonts
    ∧ drawn = zip_with (draw_op_of data) (text_elements data) fonts
    ∧ output_name side data = Some file
    ∧ save_image env file = true.
Proof.
  unfold render.
  destruct (negb _); [by intros ?%report_not_saved|].
  destruct (_ && _); [by intros ?%report_not_saved|].
  destruct (load_fonts _ _ _) as [f|fonts].
  { destruct f; first [by intros ?%report_not_saved|done]. }
  destruct (draw_all _ _) as [done_ops|] eqn:Hdraw; [|done].
  destruct (output_name _ _) as [file'|]; [|done].
  destruct (save_image _ _) eqn:Hsave; [|done].
  intros [= <- <-]. exists fonts. split_and!; try done.
  clear -Hdraw. revert done_ops Hdraw.
  induction (zip_with _ _ _) as [|op ops IH]; simpl; intros done_ops.
  - by intros [= <-].
  - destruct (draw_text env op); [|done].
    destruct (draw_all env ops) as [r|]; [|done].
    intros [= <-]. by rewrite (IH r).
Qed.

Lemma generate_badge_saved env side data sup file drawn :
  generate_badge env side data sup = Saved file drawn →
  ∃ data', handle_name data = inr data'
           ∧ render env side data' sup = Saved file drawn.
Proof.
  unfold generate_badge. destruct (negb _); [done|].
  destruct (handle_name data) as [f|data']; [|by eauto].
  destruct f; first [by intros ?%report_not_saved|done].
Qed.

(** The name step leaves every key but the three it sets as it was. *)
Lemma handle_name_other data data' k :
  handle_name data = inr data' →
  k ∉ ["first_name"; "last_name"; "text_elements"] →
  data' !! k = data !! k.
Proof.
  unfold handle_name. intros H Hk.
  assert (k ≠ "first_name" ∧ k ≠ "last_name" ∧ k ≠ "text_elements")
    as (Hk1 & Hk2 & Hk3) by set_solver.
  assert (∀ d : dict, d !! k = None → update data d !! k = data !! k)
    as Hupd by (intros d Hd; unfold update; by rewrite lookup_union_r).
  destruct (py_len _); [|done].
  destruct (get data "name_char_limit" _); try done.
  destruct (_ >? _)%Z.
  - destruct (get data "name" _) as [|s| |l]; try done.
    + destruct (contains_char _ _); [|done].
      destruct (split_once _ _) as [[first last]|]; [|done].
      injection H as <-. apply Hupd.
      by rewrite !lookup_insert_ne, lookup_singleton_ne.
    + by destruct (existsb _ _).
  - injection H as <-. apply Hupd. by rewrite lookup_singleton_ne.
Qed.

Lemma output_name_handle_name side data data' :
  handle_name data = inr data' →
  output_name side data' = output_name side data.
Proof.
  intros H. unfold output_name, get.
  rewrite (handle_name_other _ _ "id" H); [done|].
  apply (bool_decide_unpack _). by vm_compute.
Qed.

(** The replacement loop acts on each character by itself. *)
Lemma replace_loop_cons l c s :
  fold_left (λ name o, replace_char o "_" name) l (String c s)
  = String (fold_left (λ d o, if Ascii.eqb d o then "_"%char else d) l c)
           (fold_left (λ name o, replace_char o "_" name) l s).
Proof.
  revert c s. induction l as [|o l IH]; intros c s; [done|].
  simpl. by rewrite IH.
Qed.

Lemma replace_loop_nil l :
  fold_left (λ name o, replace_char o "_" name) l "" = "".
Proof. induction l as [|o l IH]; [done|]. exact IH. Qed.

Lemma sanitize_char_loop c :
  fold_left (λ d o, if Ascii.eqb d o then "_"%char else d) illegal_chars c
  = sanitize_char c.
Proof. by destruct c as [[] [] [] [] [] [] [] []]. Qed.

Lemma sanitize_filename_map s :
  sanitize_filename s = map_chars sanitize_char s.
Proof.
  unfold sanitize_filename. induction s as [|c s IH].
  - apply replace_loop_nil.
  - rewrite replace_loop_cons, IH, sanitize_char_loop. done.
Qed.

Lemma map_chars_length f s : String.length (map_chars f s) = String.length s.
Proof. induction s as [|c s IH]; simpl; congruence. Qed.

Lemma map_chars_append f a b :
  map_chars f (a +:+ b) = map_chars f a +:+ map_chars f b.
Proof.
  induction a as [|c a IH]; [done|].
  rewrite append_cons. simpl. by rewrite IH.
Qed.

Lemma startswith_append p x : startswith (p +:+ x) p = true.
Proof.
  unfold startswith. induction p as [|c p IH]; [by destruct x|].
  rewrite append_cons. simpl. by destruct (Ascii.ascii_dec c c).
Qed.

(** C3, as amended. The output file is named
    [badge_{side}_{safeId}.png], where [safeId] is the identifier
    without its four-character prefix [No. ] (the marker and the space
    that follows it) when it has that prefix, and the whole identifier
    when it does not start with [No.], with each character of the
    illegal set replaced by an underscore, character by character, in
    place and in order; the file a successful render saves has that
    name. *)
Theorem C3_output_file_name side data identifier :
  get data "id" (VStr "") = VStr identifier →
  (∀ s, sanitize_filename s = map_chars sanitize_char s
        ∧ String.length (sanitize_filename s) = String.length s)
  ∧ (∀ c, (c ∈ illegal_chars → sanitize_char c = "_"%char)
          ∧ (c ∉ illegal_chars → sanitize_char c = c))
  ∧ (∀ number, identifier = "No. " +:+ number →
       output_name side data
       = Some ("badge_" +:+ side +:+ "_" +:+
               map_chars sanitize_char number +:+ ".png"))
  ∧ (startswith identifier "No." = false →
       output_name side data
       = Some ("badge_" +:+ side +:+ "_" +:+
               map_chars sanitize_char identifier +:+ ".png"))
  ∧ (∀ env sup file drawn,
       generate_badge env side data sup = Saved file drawn →
       output_name side data = Some file).
Proof.
  intros Hid. split_and!.
  - intros s. rewrite sanitize_filename_map. split; [done|].
    apply map_chars_length.
  - intros c. unfold sanitize_char, is_illegal. by case_bool_decide.
  - intros number ->. unfold output_name. rewrite Hid.
    change ("No. " +:+ number) with ("No." +:+ (" " +:+ number)) at 1.
    rewrite startswith_append. by rewrite sanitize_filename_map.
  - intros Hp. unfold output_name. rewrite Hid, Hp.
    by rewrite sanitize_filename_map.
  - intros env sup file drawn (data' & Hname & Hr)%generate_badge_saved.
    apply render_saved in Hr as (_ & _ & _ & Hout & _).
    by rewrite <- (output_name_handle_name side _ _ Hname).
Qed.

Lemma C3_output_file_name_witness :
  output_name "front" {[ "id" := VStr "No. A/1:2" ]}
  = Some "badge_front_A_1_2.png".
Proof.
  pose proof (C3_output_file_name "front" {[ "id" := VStr "No. A/1:2" ]}
                "No. A/1:2" eq_refl) as (_ & _ & H & _).
  exact (H "A/1:2" eq_refl).
Defined.

(** The wording of the specification (strip the literal prefix [No.])
    names a different file for an identifier as the callers build it:
    the space after the marker stays in the name. *)
Lemma C3_literal_prefix_counterexample :
  output_name "front" {[ "id" := VStr "No. 1023" ]}
  = Some "badge_front_1023.png"
  ∧ spec_output_name "front" "No. 1023" = "badge_front_ 1023.png"
  ∧ output_name "front" {[ "id" := VStr "No. 1023" ]}
    ≠ Some (spec_output_name "front" "No. 1023").
Proof. by vm_compute. Qed.

End renderer.

(** ** Name overflow and font loading *)

Section render_steps.
Import Py PyFacts.

Lemma load_fonts_length env data keys fonts :
  load_fonts env data keys = inr fonts → length fonts = length keys.
Proof.
  revert fonts. induction keys as [|key keys IH]; intros fonts; simpl.
  - by intros [= <-].
  - destruct (load_font env data key); [done|].
    destruct (load_fonts env data keys) as [|fs]; [done|].
    intros [= <-]. simpl. by rewrite (IH fs).
Qed.

(** The fonts are loaded only if the font of every key is. *)
Lemma load_fonts_fails env data keys key f :
  key ∈ keys → load_font env data key = inl f →
  ∃ f', load_fonts env data keys = inl f'.
Proof.
  intros Hin Hf. induction keys as [|k keys IH]; [by apply elem_of_nil in Hin|].
  simpl. apply elem_of_cons in Hin as [<-|Hin].
  - rewrite Hf. eauto.
  - destruct (load_font env data k); [by eauto|].
    destruct (IH Hin) as [f' ->]. eauto.
Qed.

Lemma render_font_failure env side data sup key f :
  key ∈ text_elements data → load_font env data key = inl f →
  ∃ f', render env side data sup = Shown f'
        ∨ render env side data sup = Raised f'.
Proof.
  intros Hin Hf. unfold render.
  destruct (negb _); [destruct sup; simpl; eauto|].
  destruct (_ && _); [destruct sup; simpl; eauto|].
  destruct (load_fonts_fails env data _ key f Hin Hf) as [f' ->].
  destruct f', sup; simpl; eauto.
Qed.

(** Every call ends in exactly one of the three ways, and has written
    one file in the first and none in the other two. *)
Lemma outcome_files (o : outcome) :
  (∃ file drawn, o = Saved file drawn ∧ files_written o = [file])
  ∨ ((∃ f, o = Shown f ∨ o = Raised f) ∧ files_written o = []).
Proof. destruct o; simpl; eauto 6. Qed.

(** C4. When the font of any text field of the active field set cannot
    be loaded, the render ends in a failure and has written no file,
    whatever the other fields are; and every call of the renderer either
    succeeds and has written exactly one image file, or fails and has
    written none. *)
Theorem C4_font_failure_aborts_render env side data sup data' key f :
  handle_name data = inr data' →
  key ∈ text_elements data' →
  load_font env data' key = inl f →
  let o := generate_badge env side data sup in
  ((∃ f', o = Shown f' ∨ o = Raised f') ∧ files_written o = [])
  ∧ (∀ env0 side0 data0 sup0,
       let o0 := generate_badge env0 side0 data0 sup0 in
       (∃ file drawn, o0 = Saved file drawn ∧ files_written o0 = [file])
       ∨ ((∃ f0, o0 = Shown f0 ∨ o0 = Raised f0) ∧ files_written o0 = [])).
Proof.
  intros Hname Hin Hf o. split; [|intros; apply outcome_files].
  assert (∃ f', o = Shown f' ∨ o = Raised f') as [f' Ho].
  { unfold o, generate_badge. destruct (negb _); [by eauto|].
    rewrite Hname. by eapply render_font_failure. }
  split; [by eauto|]. by destruct Ho as [-> | ->].
Qed.

(** The font of the last field, [position], is the one missing. *)
Lemma C4_font_failure_aborts_render_witness :
  let data := <["font_position" := VStr "missing.ttf"]>
                (update (row_data "Li Wei" "1023" "Sales" "Clerk")
                        (sample_side "front.png")) in
  generate_badge sample_env "front" data true = Raised FontNotFoundError
  ∧ files_written (generate_badge sample_env "front" data true) = [].
Proof.
  pose (data := <["font_position" := VStr "missing.ttf"]>
                  (update (row_data "Li Wei" "1023" "Sales" "Clerk")
                          (sample_side "front.png"))).
  pose proof (C4_font_failure_aborts_render sample_env "front" data true
                (update data {[ "text_elements" := strs four_fields ]})
                "position" FontNotFoundError) as H.
  destruct H as [[_ Hfiles] _].
  - reflexivity.
  - apply (bool_decide_unpack _). by vm_compute.
  - by vm_compute.
  - split; [by vm_compute|exact Hfiles].
Defined.

Lemma omap_strs (keys : list string) :
  omap (λ v, match v with VStr s => Some s | _ => None end) (VStr <$> keys)
  = keys.
Proof. induction keys as [|k keys IH]; [done|]. csimpl. by rewrite IH. Qed.

Lemma text_elements_update data (d : dict) keys :
  d !! "text_elements" = Some (strs keys) →
  text_elements (update data d) = keys.
Proof.
  intros Hd. unfold text_elements, update.
  rewrite (lookup_union_Some_l _ _ _ _ Hd). apply omap_strs.
Qed.

(** C2. When the name is longer than the character limit of the
    record: if it has a space, it is cut at its first space, the two
    parts become [first_name] and [last_name], and the render goes on
    with the five fields (a badge that is saved has those five fields
    drawn, the two name parts first); if it has no space, the call fails
    with the name-too-long error and writes no file. *)
Theorem C2_name_overflow env side data sup name limit :
  get data "name" (VStr "") = VStr name →
  get data "name_char_limit" (VInt 10) = VInt limit →
  (limit < Z.of_nat (String.length name))%Z →
  makedirs env OUTPUT_FOLDER = true →
  let o := generate_badge env side data sup in
  (contains_char " " name = true →
     ∃ first last,
       name = first +:+ " " +:+ last
       ∧ contains_char " " first = false
       ∧ let data' :=
           update data {[ "first_name" := VStr first;
                          "last_name" := VStr last;
                          "text_elements" := strs five_fields ]} in
         handle_name data = inr data'
         ∧ text_elements data' = five_fields
         ∧ o = render env side data' sup
         ∧ ∀ file drawn,
             o = Saved file drawn →
             d_element <$> drawn = five_fields
             ∧ d_text <$> take 2 drawn = [VStr first; VStr last])
  ∧ (contains_char " " name = false →
       o = report sup (NameTooLong (VStr name)) ∧ files_written o = []).
Proof.
  intros Hname Hlimit Hlong Hdir o.
  assert ((Z.of_nat (String.length name) >? limit)%Z = true) as Hgt
    by (apply Z.gtb_lt; lia).
  split.
  - intros Hsp.
    destruct (split_once_spec " " name Hsp) as (first & last & Hsplit & -> & Hfirst).
    exists first, last. split; [done|]. split; [done|]. intros data'.
    assert (handle_name data = inr data') as Hh.
    { unfold handle_name. rewrite Hname, Hlimit. simpl py_len. cbv iota beta.
      by rewrite Hgt, Hsp, Hsplit. }
    assert (text_elements data' = five_fields) as Hte
      by by apply text_elements_update.
    assert (o = render env side data' sup) as Ho.
    { unfold o, generate_badge. by rewrite Hdir, Hh. }
    split_and!; [done..|].
    intros file drawn Hsaved. rewrite Ho in Hsaved.
    apply render_saved in Hsaved as (fonts & Hfonts & -> & _).
    apply load_fonts_length in Hfonts. rewrite Hte in Hfonts |- *.
    destruct fonts as [|f1 [|f2 [|f3 [|f4 [|f5 [|]]]]]]; try done.
    split; [done|].
    assert (∀ k v, ({[ "first_name" := VStr first; "last_name" := VStr last;
                       "text_elements" := strs five_fields ]} : dict) !! k
                   = Some v → get data' k (VStr "") = v) as Hget.
    { intros k v Hk. unfold get, data', update.
      by rewrite (lookup_union_Some_l _ data _ _ Hk). }
    cbn. by rewrite (Hget "first_name" (VStr first)),
                    (Hget "last_name" (VStr last)).
  - intros Hsp.
    assert (o = report sup (NameTooLong (VStr name))) as ->.
    { unfold o, generate_badge, handle_name.
      rewrite Hdir, Hname, Hlimit. simpl py_len. cbv iota beta.
      by rewrite Hgt, Hsp. }
    split; [done|]. apply files_written_report.
Qed.

Lemma C2_name_overflow_witness :
  let front := update (row_data "Jonathan Smith" "1023" "Sales" "Clerk")
                      (sample_side "front.png") in
  let solid := update (row_data "Jonathansmith" "1023" "Sales" "Clerk")
                      (sample_side "front.png") in
  (∃ drawn, generate_badge sample_env "front" front true
            = Saved "badge_front_1023.png" drawn
            ∧ d_text <$> take 2 drawn = [VStr "Jonathan"; VStr "Smith"])
  ∧ files_written (generate_badge sample_env "front" solid true) = [].
Proof.
  intros front solid. split.
  - destruct (generate_badge sample_env "front" front true) as [file drawn| |]
      eqn:E; [|by vm_compute in E..].
    assert (file = "badge_front_1023.png") as ->
      by (vm_compute in E; by injection E as <- _).
    exists drawn. split; [done|].
    pose proof (C2_name_overflow sample_env "front" front true
                  "Jonathan Smith" 10%Z eq_refl eq_refl eq_refl eq_refl)
      as [H _].
    destruct (H eq_refl) as (first & last & _ & _ & Hh & _ & _ & Hd).
    assert (first = "Jonathan" ∧ last = "Smith") as [Hfirst Hlast].
    { pose proof (f_equal (λ r, match r with
                                | inr d => (d !! "first_name", d !! "last_name")
                                | inl _ => (None, None)
                                end) Hh) as Hcut.
      vm_compute in Hcut. clear -Hcut. injection Hcut as H1 H2.
      split; [exact (eq_sym H1)|exact (eq_sym H2)]. }
    clear Hh H. rewrite E in Hd. destruct (Hd _ _ eq_refl) as [_ Htext].
    by rewrite Htext, Hfirst, Hlast.
  - pose proof (C2_name_overflow sample_env "front" solid true
                  "Jonathansmith" 10%Z eq_refl eq_refl eq_refl eq_refl)
      as [_ H].
    by destruct (H eq_refl).
Defined.

End render_steps.

(** ** The batch job *)

Section batch.
Import Py PyFacts.

Lemma missing_fields_spec row field :
  field ∈ missing_fields row
  ↔ field ∈ required_columns ∧ is_missing (row field) = true.
Proof. unfold missing_fields. rewrite list_elem_of_filter. tauto. Qed.

Lemma is_missing_spec value :
  is_missing value = true ↔ value = NaN ∨ strip (str value) = "".
Proof.
  unfold is_missing. rewrite orb_true_iff, String.eqb_eq.
  destruct value as [|text]; simpl.
  - split; intros _; by left.
  - split; (intros [?|?]; [done|by right]).
Qed.

Lemma missing_columns_spec df col :
  col ∈ missing_columns df ↔ col ∈ required_columns ∧ col ∉ columns df.
Proof. unfold missing_columns. rewrite list_elem_of_filter. tauto. Qed.

(** A row with a missing field is turned away before anything else. *)
Lemma process_row_missing env p dups index row :
  missing_fields row ≠ [] →
  process_row env p dups index row
  = ([Line (missing_fields_message index (missing_fields row))], []).
Proof. intros H. unfold process_row. by rewrite bool_decide_false. Qed.

(** The error list of a run that gets to the rows. *)
Lemma task_logged env presets preset_name path df p :
  missing_columns df = [] →
  presets !! preset_name = Some p →
  let results := imap (process_row env p (duplicates df)) (rows df) in
  logged (task env presets preset_name path df)
  = (if bool_decide (duplicates df = []) then []
     else [Line (duplicate_message (duplicates df))])
    ++ mjoin (fst <$> results)
  ∧ rendered (task env presets preset_name path df) = mjoin (snd <$> results).
Proof.
  intros Hcols Hp results. unfold task. rewrite Hcols, Hp. simpl.
  fold results. case_bool_decide as E; simpl; [|done]. by rewrite E.
Qed.

Lemma row_entries_logged env presets preset_name path df p index row e :
  missing_columns df = [] →
  presets !! preset_name = Some p →
  rows df !! index = Some row →
  e ∈ (process_row env p (duplicates df) index row).1 →
  e ∈ logged (task env presets preset_name path df).
Proof.
  intros Hcols Hp Hrow He.
  destruct (task_logged env presets preset_name path df p Hcols Hp) as [-> _].
  apply elem_of_app. right. apply list_elem_of_join.
  eexists. split; [exact He|].
  apply list_elem_of_fmap. eexists. split; [done|].
  apply list_elem_of_lookup. exists index.
  by rewrite list_lookup_imap, Hrow.
Qed.

(** C5. A row of a batch in which some of the seven required fields are
    missing (null, or empty once trimmed) gets exactly one entry in the
    error list, which names all its missing fields, and only those,
    together; the row renders no badge. *)
Theorem C5_missing_fields_reported env presets preset_name path df p index row :
  missing_columns df = [] →
  presets !! preset_name = Some p →
  rows df !! index = Some row →
  missing_fields row ≠ [] →
  let message := missing_fields_message index (missing_fields row) in
  process_row env p (duplicates df) index row = ([Line message], [])
  ∧ Line message ∈ logged (task env presets preset_name path df)
  ∧ message = "Row " +:+ pretty (index + 2) +:+ ": Missing fields - " +:+
              join ", " (missing_fields row) +:+ "."
  ∧ (∀ field, field ∈ missing_fields row
              ↔ field ∈ required_columns ∧ is_missing (row field) = true)
  ∧ (∀ value, is_missing value = true
              ↔ value = NaN ∨ strip (str value) = "")
  ∧ length required_columns = 7.
Proof.
  intros Hcols Hp Hrow Hmiss message.
  pose proof (process_row_missing env p (duplicates df) index row Hmiss) as E.
  split_and!; try done.
  - eapply row_entries_logged; [done..|]. rewrite E. by apply list_elem_of_singleton.
  - apply missing_fields_spec.
  - apply is_missing_spec.
Qed.

(** A row with no department and a blank English name. *)
Lemma C5_missing_fields_reported_witness :
  let row : Row := λ col,
    if String.eqb col "Department" then NaN
    else if String.eqb col "English Name" then Value "   "
    else sample_row "Li Wei" "" "1023" col in
  let df := {| columns := required_columns; rows := [row] |} in
  process_row sample_env sample_preset (duplicates df) 0 row
  = ([Line "Row 2: Missing fields - English Name, Department."], [])
  ∧ Line "Row 2: Missing fields - English Name, Department."
    ∈ logged (task sample_env sample_presets "default" "log.txt" df).
Proof.
  intros row df.
  pose proof (C5_missing_fields_reported sample_env sample_presets "default"
                "log.txt" df sample_preset 0 row) as H.
  destruct H as (H1 & H2 & _).
  - by vm_compute.
  - reflexivity.
  - done.
  - by vm_compute.
  - split; [rewrite H1; by vm_compute|exact H2].
Defined.

(** C6. When the sheet lacks required columns, the run ends at once: one
    message that names every missing column is shown and written to the
    error log, and nothing is rendered; the outcome does not depend on
    the rows, the presets or the services, none of which is used. *)
Theorem C6_missing_columns_abort env presets preset_name path df :
  missing_columns df ≠ [] →
  let message := missing_columns_message (missing_columns df) in
  task env presets preset_name path df
  = {| log := Some [Line message]; notice := ShowError message;
       rendered := [] |}
  ∧ message = "The Excel file is missing the following required columns: "
              +:+ join ", " (missing_columns df)
  ∧ (∀ col, col ∈ missing_columns df
            ↔ col ∈ required_columns ∧ col ∉ columns df)
  ∧ (∀ env' presets' preset_name' rows',
       task env' presets' preset_name' path
            {| columns := columns df; rows := rows' |}
       = task env presets preset_name path df).
Proof.
  intros Hmiss message.
  assert (∀ env' presets' preset_name' rows',
            task env' presets' preset_name' path
                 {| columns := columns df; rows := rows' |}
            = {| log := Some [Line message]; notice := ShowError message;
                 rendered := [] |}) as H.
  { intros. unfold task.
    change (missing_columns {| columns := columns df; rows := rows' |})
      with (missing_columns df).
    by rewrite bool_decide_false. }
  split_and!.
  - destruct df as [cols rs]. apply H.
  - done.
  - apply missing_columns_spec.
  - intros. rewrite H. destruct df as [cols rs]. symmetry. apply H.
Qed.

Lemma C6_missing_columns_abort_witness :
  task sample_env sample_presets "default" "log.txt"
       {| columns := ["Local Name"; "Employee Number"; "Department";
                      "Position"; "Notes"];
          rows := rows sample_plain |}
  = {| log := Some [Line ("The Excel file is missing the following required "
                          +:+ "columns: English Name, Department_en, "
                          +:+ "Position_en")];
       notice := ShowError ("The Excel file is missing the following required "
                            +:+ "columns: English Name, Department_en, "
                            +:+ "Position_en");
       rendered := [] |}.
Proof.
  pose proof (C6_missing_columns_abort sample_env sample_presets "default"
                "log.txt"
                {| columns := ["Local Name"; "Employee Number"; "Department";
                               "Position"; "Notes"];
                   rows := rows sample_plain |}) as H.
  destruct H as (H & _).
  - by vm_compute.
  - rewrite H. by vm_compute.
Defined.

(** C1 (the code departs from the claim on these inputs). The
    duplicates are collected from the trimmed employee numbers before
    [clean_employee_id] is applied (line 427), and each row is looked up
    by its cleaned number (line 484). Two rows that both read
    ["1023.0"] are announced as duplicates in the summary line, yet
    neither row gets an entry of its own and both are rendered, onto
    the same two files; of ["1023.0"] and ["1023"], which normalize to
    the same number, nothing is detected and the run reports success.
    Rows whose number has no [.0] to strip are turned away as the claim
    says. *)
Theorem C1_dot_zero_duplicates_are_rendered :
  (normalize "1023.0" = "1023" ∧ normalize "1023" = "1023")
  ∧ duplicates sample_twice = ["1023.0"]
  ∧ task sample_env sample_presets "default" "log.txt" sample_twice
    = {| log := Some [Line "Duplicate Employee Numbers found: 1023.0"];
         notice := ShowError (batch_errors_message "log.txt");
         rendered := ["badge_front_1023.png"; "badge_back_1023.png";
                      "badge_front_1023.png"; "badge_back_1023.png"] |}
  ∧ duplicates sample_mixed = []
  ∧ task sample_env sample_presets "default" "log.txt" sample_mixed
    = {| log := None;
         notice := ShowInfo success_message;
         rendered := ["badge_front_1023.png"; "badge_back_1023.png";
                      "badge_front_1023.png"; "badge_back_1023.png"] |}
  ∧ task sample_env sample_presets "default" "log.txt" sample_plain
    = {| log := Some [Line "Duplicate Employee Numbers found: 1023";
                      Line "Row 2: Employee Number '1023' is duplicated.";
                      Line "Row 3: Employee Number '1023' is duplicated."];
         notice := ShowError (batch_errors_message "log.txt");
         rendered := [] |}.
Proof. by vm_compute. Qed.

Lemma row_data_keys name employee_id department position key :
  key ∈ four_fields →
  is_Some (row_data name employee_id department position !! key).
Proof.
  unfold four_fields. rewrite !elem_of_cons, elem_of_nil.
  intros [->|[->|[->|[->|[]]]]]; by eexists.
Qed.




End batch.

(** ** The PDF compositor *)

Section compositor.
Import Py PyFacts.

Lemma sequence_inr {E A} (l : list (E + A)) (r : list A) :
  sequence l = inr r → l = inr <$> r.
Proof.
  revert r. induction l as [|[e|a] l IH]; intros r; simpl.
  - by intros [= <-].
  - done.
  - destruct (sequence l) as [e|r']; [done|].
    intros [= <-]. by rewrite (IH r').
Qed.


Lemma lookup_range_step stop step k :
  k < (stop + step - 1) / step → range_step stop step !! k = Some (k * step).
Proof.
  intros Hk. unfold range_step. rewrite list_lookup_fmap.
  by rewrite (proj2 (lookup_seq 0 _ k k)).
Qed.

(** The keys of a page are the next three keys (or those that remain),
    in slots 0, 1 and 2. *)
Lemma page_slots_take keys i :
  page_slots keys i = imap (λ j key, (j, key)) (take 3 (drop i keys)).
Proof.
  unfold page_slots.
  pose proof (length_drop keys i) as Hlen.
  assert (∀ j, keys !! (i + j) = drop i keys !! j) as Hlk
    by (intros j; by rewrite lookup_drop).
  simpl slots_until.
  destruct (drop i keys) as [|a [|b [|c rest]]] eqn:E; simpl in Hlen.
  - rewrite (proj2 (Nat.leb_le _ _)) by lia. done.
  - rewrite (proj2 (Nat.leb_gt _ (i + 0))) by lia.
    rewrite (proj2 (Nat.leb_le _ (i + 1))) by lia.
    csimpl. by rewrite Hlk.
  - rewrite (proj2 (Nat.leb_gt _ (i + 0))) by lia.
    rewrite (proj2 (Nat.leb_gt _ (i + 1))) by lia.
    rewrite (proj2 (Nat.leb_le _ (i + 2))) by lia.
    csimpl. by rewrite !Hlk.
  - rewrite (proj2 (Nat.leb_gt _ (i + 0))) by lia.
    rewrite (proj2 (Nat.leb_gt _ (i + 1))) by lia.
    rewrite (proj2 (Nat.leb_gt _ (i + 2))) by lia.
    csimpl. by rewrite !Hlk.
Qed.


Lemma elem_of_files_with_prefix prefix files f :
  f ∈ files_with_prefix prefix files
  ↔ f ∈ files ∧ startswith f prefix = true.
Proof.
  unfold files_with_prefix. rewrite merge_sort_Permutation.
  rewrite list_elem_of_filter. tauto.
Qed.




(** The value stored for a key is one of the files listed. *)
Lemma files_dict_lookup prefix (l : list string) k f :
  files_dict prefix l !! k = Some f → f ∈ l.
Proof.
  unfold files_dict.
  assert (∀ d : gmap string string,
            foldl (λ d f, <[join_key prefix f := f]> d) d l !! k = Some f →
            f ∈ l ∨ d !! k = Some f) as H.
  { induction l as [|g l IH]; intros d; simpl; [by right|].
    intros [Hf|Hd]%IH; [left; by right|].
    apply lookup_insert_Some in Hd as [[_ <-]|[_ Hd]]; [left; by left|by right]. }
  intros [?|Hd]%H; [done|]. by rewrite lookup_empty in Hd.
Qed.

(** For the dictionaries the function builds from a directory listing,
    whose names are never empty, the test of lines 235 and 245 is the
    test that the key has a file. *)
Lemma found_files_dict prefix files key :
  "" ∉ files →
  found (files_dict prefix (files_with_prefix prefix files)) key
  = files_dict prefix (files_with_prefix prefix files) !! key.
Proof.
  intros Hne. unfold found.
  destruct (_ !! key) as [f|] eqn:E; [|done].
  apply files_dict_lookup, elem_of_files_with_prefix in E as [Hf _].
  destruct (String.eqb f "") eqn:Ef; [|done].
  apply String.eqb_eq in Ef as ->. done.
Qed.


(** The pages of a document that is produced: one per start index, each
    made by [make_page]. *)
Lemma generate_badge_pdf_pages env cfg files pages :
  generate_badge_pdf env cfg (Some files) = inr pages →
  let fd := files_dict (badge_front_prefix cfg)
              (files_with_prefix (badge_front_prefix cfg) files) in
  let bd := files_dict (badge_back_prefix cfg)
              (files_with_prefix (badge_back_prefix cfg) files) in
  let keys := all_keys fd bd in
  make_page env cfg fd bd keys <$> range_step (length keys) 3
  = inr <$> pages.
Proof.
  intros H fd bd keys. subst keys fd bd.
  unfold generate_badge_pdf in H. cbv zeta in H.
  match type of H with
  | context [sequence ?l] => destruct (sequence l) as [e|pages'] eqn:E
  end; [done|].
  destruct (pdf_output env _); [|done].
  injection H as <-. by apply sequence_inr.
Qed.



Lemma insert_image_spec env file x y pl :
  insert_image env file x y = Some pl →
  pl_file pl = file ∧ pl_x pl = x ∧ pl_y pl = y
  ∧ ∃ info, open_image env file = Some info
            ∧ get_image_dimensions info = Some (pl_w pl, pl_h pl).
Proof.
  unfold insert_image.
  destruct (open_image env file) as [info|] eqn:Eo; [|done].
  simpl. destruct (get_image_dimensions info) as [[w h]|] eqn:Ed; [|done].
  simpl. destruct (pdf_image env _); [|done].
  intros [= <-]. simpl. split_and!; try done. by exists info.
Qed.

(** C8. For a key whose images are placed: when the key has a front
    image, it is put at the top margin, and a back image of the key is
    put in the same slot below it, lower by the height of the front
    image plus the row gap; when the key has no front image, its back
    image is put at the top margin of that slot. *)
Theorem C8_front_above_back env cfg fd bd j key placed :
  place_key env cfg fd bd j key = inr placed →
  let top := start_y_position cfg in
  let at_slot (file : string) (y : Q) (pl : placement) :=
    pl_file pl = file ∧ pl_x pl = x_pos cfg j ∧ pl_y pl = y
    ∧ ∃ info, open_image env file = Some info
              ∧ get_image_dimensions info = Some (pl_w pl, pl_h pl) in
  match found fd key, found bd key with
  | Some front, Some back =>
      ∃ pf pb, placed = [pf; pb] ∧ at_slot front top pf
               ∧ at_slot back (top + (pl_h pf + group_spacing_y cfg))%Q pb
  | Some front, None => ∃ pf, placed = [pf] ∧ at_slot front top pf
  | None, Some back => ∃ pb, placed = [pb] ∧ at_slot back top pb
  | None, None => placed = []
  end.
Proof.
  intros H top at_slot. revert H. unfold place_key.
  destruct (found fd key) as [front|], (found bd key) as [back|]; intros H.
  - destruct (insert_image env front _ _) as [pf|] eqn:Ef; [|done].
    destruct (insert_image env back _ _) as [pb|] eqn:Eb; [|done].
    injection H as <-. exists pf, pb.
    split_and!; [done|by eapply insert_image_spec..].
  - destruct (insert_image env front _ _) as [pf|] eqn:Ef; [|done].
    injection H as <-. exists pf. split; [done|by eapply insert_image_spec].
  - destruct (insert_image env back _ _) as [pb|] eqn:Eb; [|done].
    injection H as <-. exists pb. split; [done|by eapply insert_image_spec].
  - by injection H as <-.
Qed.

(** Key ["1023"] has both images, key ["1024"] a back image only. *)
Lemma C8_front_above_back_witness :
  place_key sample_pdf_env sample_config sample_front_dict sample_back_dict
    1 "1023"
  = inr [ {| pl_file := "badge_front_1023.png"; pl_x := 64; pl_y := 10;
             pl_w := 152400 # 3000; pl_h := 228600 # 3000 |};
          {| pl_file := "badge_back_1023.png"; pl_x := 64;
             pl_y := 267600 # 3000;
             pl_w := 152400 # 3000; pl_h := 228600 # 3000 |} ]
  ∧ ∃ pb, place_key sample_pdf_env sample_config sample_front_dict
            sample_back_dict 2 "1024" = inr [pb]
          ∧ pl_file pb = "badge_back_1024.png"
          ∧ pl_y pb = start_y_position sample_config.
Proof.
  split; [by vm_compute|].
  destruct (place_key sample_pdf_env sample_config sample_front_dict
              sample_back_dict 2 "1024") as [e|placed] eqn:E;
    [by vm_compute in E|].
  pose proof (C8_front_above_back sample_pdf_env sample_config
                sample_front_dict sample_back_dict 2 "1024" placed E) as H.
  change (found sample_front_dict "1024") with (@None string) in H.
  change (found sample_back_dict "1024") with (Some "badge_back_1024.png") in H.
  destruct H as (pb & -> & Hfile & _ & Hy & _).
  exists pb. by split_and!.
Defined.

End compositor.

(** ** Where the duplicate check does work

    The duplicates are collected from the trimmed numbers; a row is turned
    away when its cleaned number is among them. The two agree on every
    number that [clean_employee_id] leaves as it is. *)

Section duplicates.
Import Py PyFacts.

Lemma elem_of_unique_from seen l x :
  x ∈ unique_from seen l ↔ x ∈ l ∧ x ∉ seen.
Proof.
  revert seen. induction l as [|y l IH]; intros seen; simpl.
  - rewrite elem_of_nil. tauto.
  - case_bool_decide as Hy.
    + rewrite IH, elem_of_cons. split; [tauto|].
      intros [[->|?] ?]; tauto.
    + rewrite !elem_of_cons, IH, elem_of_cons.
      destruct (decide (x = y)) as [->|]; tauto.
Qed.

Lemma elem_of_duplicates df x :
  x ∈ duplicates df
  ↔ 1 < length (filter (λ y, y = x) (employee_numbers df)).
Proof.
  unfold duplicates, unique, duplicated_keep_false.
  rewrite elem_of_unique_from, list_elem_of_filter, elem_of_nil.
  split; [tauto|]. intros H. split_and!; [done| |tauto].
  destruct (filter _ _) as [|y l] eqn:E; [simpl in H; lia|].
  assert (y ∈ filter (λ y, y = x) (employee_numbers df)) as Hy
    by (rewrite E; by left).
  by apply list_elem_of_filter in Hy as [-> ?].
Qed.

Lemma filter_eq_length_pos (l : list string) x :
  x ∈ l → 0 < length (filter (λ y, y = x) l).
Proof.
  intros Hx.
  assert (x ∈ filter (λ y, y = x) l) as H by by apply list_elem_of_filter.
  destruct (filter _ l); [by apply elem_of_nil in H|simpl; lia].
Qed.

Lemma twice_in_list (l : list string) i j x :
  i < j → l !! i = Some x → l !! j = Some x →
  1 < length (filter (λ y, y = x) l).
Proof.
  intros Hij Hi Hj.
  rewrite <- (take_drop_middle l i x Hi).
  rewrite filter_app, filter_cons_True, length_app by done. simpl.
  assert (x ∈ drop (S i) l) as Hx.
  { apply list_elem_of_lookup. exists (j - S i).
    rewrite lookup_drop. by replace (S i + (j - S i)) with j by lia. }
  apply filter_eq_length_pos in Hx. lia.
Qed.

Lemma process_row_duplicated env p dups index row :
  missing_fields row = [] →
  normalize (str (row "Employee Number")) ∈ dups →
  process_row env p dups index row
  = ([Line (duplicated_message index
              (normalize (str (row "Employee Number"))))], []).
Proof.
  intros Hm Hd. unfold process_row. rewrite Hm. simpl.
  by rewrite bool_decide_true.
Qed.

(** Two rows with the same trimmed number, which has no [.0] to strip:
    each is turned away with an entry of its own and renders nothing. *)
Lemma plain_duplicate_rejected env p df i j row other :
  i ≠ j →
  rows df !! i = Some row →
  rows df !! j = Some other →
  strip (str (row "Employee Number")) = strip (str (other "Employee Number")) →
  normalize (str (row "Employee Number")) = strip (str (row "Employee Number")) →
  ∃ text, process_row env p (duplicates df) i row = ([Line text], []).
Proof.
  intros Hij Hi Hj Hsame Hclean.
  destruct (decide (missing_fields row = [])) as [Hm|Hm];
    [|rewrite process_row_missing by done; by eexists].
  rewrite process_row_duplicated; [by eexists|done|].
  rewrite Hclean. apply elem_of_duplicates.
  assert (employee_numbers df !! i = Some (strip (str (row "Employee Number"))))
    as Ei.
  { unfold employee_numbers. rewrite list_lookup_fmap.
    by rewrite (Hi : @lookup nat Row (list Row) _ i (rows df) = Some row). }
  assert (employee_numbers df !! j = Some (strip (str (row "Employee Number"))))
    as Ej.
  { unfold employee_numbers. rewrite list_lookup_fmap.
    rewrite (Hj : @lookup nat Row (list Row) _ j (rows df) = Some other).
    simpl. by rewrite Hsame. }
  destruct (decide (i < j)).
  - by eapply (twice_in_list _ i j).
  - eapply (twice_in_list _ j i); [lia|done..].
Qed.

End duplicates.


(** * Further properties of the code *)

(** ** [sanitize_filename] and [get_image_dimensions] *)

Section helpers.
Import Py PyFacts.

Lemma sanitize_char_not_illegal c : is_illegal (sanitize_char c) = false.
Proof.
unfold sanitize_char. destruct (is_illegal c) eqn:E; [|done].
apply bool_decide_eq_false. apply (bool_decide_unpack _). by vm_compute.
Qed.

Lemma contains_char_map_sanitize c s :
  c ∈ illegal_chars → contains_char c (map_chars sanitize_char s) = false.
Proof.
intros Hc. induction s as [|d s IH]; [done|]. simpl. rewrite IH.
destruct (Ascii.eqb (sanitize_char d) c) eqn:E; [|done].
apply Ascii.eqb_eq in E as <-.
pose proof (sanitize_char_not_illegal d) as Hd.
by apply bool_decide_eq_false in Hd.
Qed.

Lemma map_sanitize_fixed s :
  map_chars sanitize_char s = s ↔ all_chars (λ c, negb (is_illegal c)) s = true.
Proof.
induction s as [|d s IH]; [done|]. simpl. rewrite andb_true_iff, <- IH.
unfold sanitize_char at 1. split.
- intros [= Hd Hs]. split; [|done].
  destruct (is_illegal d) eqn:E; [|done].
  pose proof (sanitize_char_not_illegal d) as Hn. unfold sanitize_char in Hn.
  rewrite E in Hn. rewrite Hd in Hn. congruence.
- intros [Hd ->]. apply negb_true_iff in Hd. by rewrite Hd.
Qed.

(** X1. A sanitized file name holds none of the nine illegal characters,
    and sanitizing it again changes nothing. *)
Theorem X1_sanitize_filename_has_no_illegal_char s :
  (∀ c, c ∈ illegal_chars → contains_char c (sanitize_filename s) = false)
  ∧ sanitize_filename (sanitize_filename s) = sanitize_filename s.
Proof.
split.
- intros c Hc. rewrite sanitize_filename_map.
  by apply contains_char_map_sanitize.
- rewrite !sanitize_filename_map. apply map_sanitize_fixed.
  induction s as [|d s IH]; [done|]. simpl.
  by rewrite sanitize_char_not_illegal, IH.
Qed.

(** X2. [sanitize_filename] returns a name unchanged exactly when the name
    holds no illegal character. *)
Theorem X2_sanitize_filename_fixed_points s :
  sanitize_filename s = s ↔ all_chars (λ c, negb (is_illegal c)) s = true.
Proof. rewrite sanitize_filename_map. apply map_sanitize_fixed. Qed.


End helpers.

(** ** More on [generate_badge] *)

Section renderer_more.
Import Py PyFacts.

Lemma get_update_other data (d : dict) k dflt :
  d !! k = None → get (update data d) k dflt = get data k dflt.
Proof. intros Hd. unfold get, update. by rewrite lookup_union_r. Qed.

(** X4. A name no longer than the character limit (10 when the record has
    none) is not split, whether or not it has a space: the render goes on
    with the four fields, and a badge that is saved has exactly those four
    drawn, the whole name first. *)
Theorem X4_short_name_is_not_split env side data sup name limit :
  get data "name" (VStr "") = VStr name →
  get data "name_char_limit" (VInt 10) = VInt limit →
  (Z.of_nat (String.length name) ≤ limit)%Z →
  makedirs env OUTPUT_FOLDER = true →
  let o := generate_badge env side data sup in
  let data' := update data {[ "text_elements" := strs four_fields ]} in
  handle_name data = inr data'
  ∧ o = render env side data' sup
  ∧ ∀ file drawn,
      o = Saved file drawn →
      d_element <$> drawn = four_fields
      ∧ d_text <$> take 1 drawn = [VStr name].
Proof.
intros Hname Hlimit Hshort Hdir o data'.
assert ((Z.of_nat (String.length name) >? limit)%Z = false) as Hgt
  by (rewrite Z.gtb_ltb; apply Z.ltb_ge; lia).
assert (handle_name data = inr data') as Hh.
{ unfold handle_name. rewrite Hname, Hlimit. simpl py_len. cbv iota beta.
  by rewrite Hgt. }
assert (o = render env side data' sup) as Ho.
{ unfold o, generate_badge. by rewrite Hdir, Hh. }
split_and!; [done..|].
intros file drawn Hsaved. rewrite Ho in Hsaved.
apply render_saved in Hsaved as (fonts & Hfonts & -> & _).
assert (text_elements data' = four_fields) as Hte
  by by apply text_elements_update.
apply load_fonts_length in Hfonts. rewrite Hte in Hfonts |- *.
destruct fonts as [|f1 [|f2 [|f3 [|f4 [|]]]]]; try done.
split; [done|]. cbn. unfold data'. by rewrite get_update_other, Hname.
Qed.

Lemma X4_short_name_is_not_split_witness :
  let data := update (row_data "Li Wei" "1023" "Sales" "Clerk")
                     (sample_side "front.png") in
  ∃ drawn, generate_badge sample_env "front" data true
           = Saved "badge_front_1023.png" drawn
           ∧ d_text <$> take 1 drawn = [VStr "Li Wei"].
Proof.
intros data.
destruct (generate_badge sample_env "front" data true) as [file drawn| |]
  eqn:E; [|by vm_compute in E..].
assert (file = "badge_front_1023.png") as ->
  by (vm_compute in E; by injection E as <- _).
exists drawn. split; [done|].
pose proof (X4_short_name_is_not_split sample_env "front" data true
              "Li Wei" 10%Z eq_refl eq_refl) as H.
destruct H as (_ & _ & H); [by vm_compute|done|].
rewrite E in H. by destruct (H _ _ eq_refl).
Defined.



Lemma load_fonts_ext env env' data keys :
  truetype env = truetype env' →
  load_fonts env data keys = load_fonts env' data keys.
Proof.
intros Ht. induction keys as [|k keys IH]; [done|]. simpl.
unfold load_font. by rewrite Ht, IH.
Qed.

Lemma draw_all_ext env env' ops :
  draw_text env = draw_text env' → draw_all env ops = draw_all env' ops.
Proof.
intros Hd. induction ops as [|op ops IH]; [done|]. simpl. by rewrite Hd, IH.
Qed.

(** X6. The photo is pasted on the front side only, and only when the
    record has a non-empty [photo_img]: for any other side, or with no
    photo given, the call ends the same way whatever the photo service
    would do. *)
Theorem X6_photo_on_front_only env paste side data sup :
  side ≠ "front" ∨ truthy (get data "photo_img" VNone) = false →
  generate_badge
    {| makedirs := makedirs env; open_background := open_background env;
       paste_photo := paste; truetype := truetype env;
       draw_text := draw_text env; save_image := save_image env |}
    side data sup
  = generate_badge env side data sup.
Proof.
intros Hcond. unfold generate_badge. simpl.
destruct (negb _); [done|].
destruct (handle_name data) as [f|data'] eqn:Hname; [done|].
unfold render. simpl. destruct (negb (open_background env _)); [done|].
assert (String.eqb side "front" && truthy (get data' "photo_img" VNone)
        = false) as ->.
{ destruct Hcond as [Hside|Hphoto].
  - apply String.eqb_neq in Hside. by rewrite Hside.
  - unfold get in *.
    rewrite (handle_name_other _ _ "photo_img" Hname), Hphoto;
      [by destruct (String.eqb _ _)|].
    apply (bool_decide_unpack _). by vm_compute. }
simpl. rewrite (load_fonts_ext _ env) by done.
destruct (load_fonts _ _ _); [done|]. by rewrite (draw_all_ext _ env) by done.
Qed.

Lemma X6_photo_on_front_only_witness :
  let data := <["photo_img" := VStr "portrait.png"]>
                (update (row_data "Li Wei" "1023" "Sales" "Clerk")
                        (sample_side "back.png")) in
  generate_badge
    {| makedirs := makedirs sample_env;
       open_background := open_background sample_env;
       paste_photo := λ _, false; truetype := truetype sample_env;
       draw_text := draw_text sample_env;
       save_image := save_image sample_env |}
    "back" data true
  = generate_badge sample_env "back" data true.
Proof.
intros data. apply X6_photo_on_front_only. left. done.
Defined.

Local Ltac mode_leaf :=
  simpl; repeat split; intros; simplify_eq; repeat split; eauto.

(** X7. [suppress_message] changes how a failure is reported and nothing
    else: the same file is written either way; with it set no message box
    is queued for a failure, the failure is raised; with it unset the four
    failures the function handles are shown and never raised, and only an
    exception outside its handlers (a missing font key, for one) leaves
    the function. *)
Theorem X7_suppress_message_changes_reporting_only env side data :
  let quiet := generate_badge env side data true in
  let loud := generate_badge env side data false in
  files_written quiet = files_written loud
  ∧ (∀ file drawn, quiet = Saved file drawn ↔ loud = Saved file drawn)
  ∧ (∀ f, quiet = Shown f → False)
  ∧ (∀ f, loud = Shown f → quiet = Raised f)
  ∧ (∀ f, loud = Raised f → quiet = Raised f ∧ ∃ exn, f = Uncaught exn).
Proof.
intros quiet loud. unfold quiet, loud, generate_badge, render, report.
destruct (negb (makedirs _ _)); [mode_leaf|].
destruct (handle_name data) as [[]|data']; [mode_leaf..|].
destruct (negb (open_background _ _)); [mode_leaf|].
destruct (_ && _); [mode_leaf|].
destruct (load_fonts _ _ _) as [[]|fonts]; [mode_leaf..|].
destruct (draw_all _ _); [|mode_leaf].
destruct (output_name _ _); [|mode_leaf].
destruct (save_image _ _); mode_leaf.
Qed.

End renderer_more.

(** ** File names: from the renderer to the compositor *)

Section file_names.
Import Py PyFacts.

Lemma append_assoc a b c : (a +:+ b) +:+ c = a +:+ (b +:+ c).
Proof.
induction a as [|x a IH]; [done|]. rewrite !append_cons. by rewrite IH.
Qed.

Lemma slice_from_length_append p r : slice_from (String.length p) (p +:+ r) = r.
Proof. induction p as [|x p IH]; [by destruct r|]. by rewrite append_cons. Qed.

(** Cutting the prefix and the four characters of [.png] off a badge file
    name gives back what is between them. *)
Lemma join_key_append prefix key :
  join_key prefix (prefix +:+ key +:+ ".png") = key.
Proof.
unfold join_key, slice. rewrite slice_from_length_append.
rewrite !length_append. simpl String.length.
replace (_ - 4 - _) with (String.length key) by lia.
apply slice_to_length_append.
Qed.

Lemma output_name_spec side data file :
  output_name side data = Some file →
  ∃ identifier,
    get data "id" (VStr "") = VStr identifier
    ∧ file = ("badge_" +:+ side +:+ "_") +:+
             sanitize_filename
               (if startswith identifier "No." then slice_from 4 identifier
                else identifier) +:+ ".png".
Proof.
unfold output_name. destruct (get data "id" _) as [|identifier| |]; try done.
intros [= <-]. exists identifier. split; [done|].
by rewrite !append_assoc.
Qed.

Lemma output_name_numbered side data number :
  get data "id" (VStr "") = VStr ("No. " +:+ number) →
  output_name side data
  = Some ("badge_" +:+ side +:+ "_" +:+ sanitize_filename number +:+ ".png").
Proof.
intros Hid. unfold output_name. rewrite Hid.
change ("No. " +:+ number) with ("No." +:+ (" " +:+ number)) at 1.
by rewrite startswith_append.
Qed.

(** X8. The name of the file a render saves starts with
    [badge_{side}_], and the join key the compositor cuts out of it with
    that prefix is the sanitized identifier; the front and the back file
    of one record therefore get the same join key. *)
Theorem X8_join_key_of_rendered_file side data file :
  output_name side data = Some file →
  let key := join_key ("badge_" +:+ side +:+ "_") file in
  startswith file ("badge_" +:+ side +:+ "_") = true
  ∧ file = ("badge_" +:+ side +:+ "_") +:+ key +:+ ".png"
  ∧ (∀ c, c ∈ illegal_chars → contains_char c key = false)
  ∧ (∀ side' file', output_name side' data = Some file' →
                    join_key ("badge_" +:+ side' +:+ "_") file' = key).
Proof.
intros (identifier & Hid & ->)%output_name_spec key. unfold key.
rewrite join_key_append. split_and!.
- apply startswith_append.
- done.
- intros c Hc. rewrite sanitize_filename_map.
  by apply contains_char_map_sanitize.
- intros side' file' (identifier' & Hid' & ->)%output_name_spec.
  rewrite join_key_append. rewrite Hid in Hid'. by injection Hid' as <-.
Qed.

Lemma X8_join_key_of_rendered_file_witness :
  join_key "badge_front_" "badge_front_A_17.png" = "A_17"
  ∧ join_key "badge_back_" "badge_back_A_17.png" = "A_17".
Proof.
pose proof (X8_join_key_of_rendered_file "front"
              {[ "id" := VStr "No. A/17" ]} "badge_front_A_17.png" eq_refl)
  as (_ & _ & _ & H).
split; [by vm_compute|].
exact (H "back" "badge_back_A_17.png" eq_refl).
Defined.

(** X9. The single-record callback fails exactly when the preset or its
    side does not exist. Otherwise the record it renders carries the
    trimmed name and the identifier [No. ] followed by the trimmed,
    upper-cased entry, whatever the preset holds under those keys, and
    the file is named after that entry. *)
Theorem X9_single_record_identifier upper presets preset_name side e data :
  generate upper presets preset_name side e = Some data →
  (∃ p side_preset, presets !! preset_name = Some p
                    ∧ p !! side = Some side_preset)
  ∧ get data "name" (VStr "") = VStr (strip (name_entry e))
  ∧ get data "id" (VStr "")
    = VStr ("No. " +:+ upper (strip (id_entry e)))
  ∧ output_name side data
    = Some ("badge_" +:+ side +:+ "_" +:+
            sanitize_filename (upper (strip (id_entry e))) +:+ ".png")
  ∧ (∀ side', (∀ p, presets !! preset_name = Some p → p !! side' = None) →
              generate upper presets preset_name side' e = None).
Proof.
unfold generate. intros H.
destruct (presets !! preset_name) as [p|] eqn:Hp; [|done]. simpl in H.
destruct (p !! side) as [side_preset|] eqn:Hside; [|done]. simpl in H.
injection H as <-.
assert (∀ k v, k ≠ "photo_img" → user_input upper e !! k = Some v →
               get (match photo_entry e with
                    | Some photo =>
                        if String.eqb side "front"
                        then <["photo_img" := VStr (strip photo)]>
                               (update side_preset (user_input upper e))
                        else update side_preset (user_input upper e)
                    | None => update side_preset (user_input upper e)
                    end) k (VStr "") = v) as Hget.
{ intros k v Hk Hv. unfold get.
  assert (update side_preset (user_input upper e) !! k = Some v) as Hu
    by (unfold update; by apply lookup_union_Some_l).
  destruct (photo_entry e); [|by rewrite Hu].
  destruct (String.eqb side "front"); [|by rewrite Hu].
  by rewrite lookup_insert_ne, Hu. }
assert (get (match photo_entry e with
             | Some photo =>
                 if String.eqb side "front"
                 then <["photo_img" := VStr (strip photo)]>
                        (update side_preset (user_input upper e))
                 else update side_preset (user_input upper e)
             | None => update side_preset (user_input upper e)
             end) "id" (VStr "")
        = VStr ("No. " +:+ upper (strip (id_entry e)))) as Hid
  by by apply Hget.
split_and!.
- eauto.
- by apply Hget.
- done.
- by apply output_name_numbered.
- intros side' Hnone. simpl. by rewrite (Hnone p eq_refl).
Qed.

Lemma X9_single_record_identifier_witness :
  ∃ data, generate id {[ "default" := named_preset ]} "default" "front"
            sample_entries = Some data
          ∧ output_name "front" data = Some "badge_front_a17.png".
Proof.
eexists. split; [reflexivity|].
exact (proj1 (proj2 (proj2 (proj2
         (X9_single_record_identifier id {[ "default" := named_preset ]}
            "default" "front" sample_entries _ eq_refl))))).
Defined.

End file_names.

(** ** More on the batch job *)

Section batch_more.
Import Py PyFacts.

(** The three ways a row ends: both badges and no entry; one entry and
    no badge; or the front badge and the entry of the failed back. *)
Lemma process_row_shape env p dups index row :
  let employee_id := normalize (str (row "Employee Number")) in
  (∃ f b, process_row env p dups index row = ([], [f; b])
          ∧ missing_fields row = []
          ∧ (employee_id ∉ dups)
          ∧ render_side env "front" (front_data p row employee_id) = inr f
          ∧ render_side env "back" (back_data p row employee_id) = inr b)
  ∨ (∃ e, process_row env p dups index row = ([e], []))
  ∨ (∃ e f, process_row env p dups index row
            = ([RenderFailure (row_number index) employee_id e], [f])
            ∧ render_side env "front" (front_data p row employee_id) = inr f
            ∧ render_side env "back" (back_data p row employee_id) = inl e).
Proof.
intros employee_id. unfold process_row. fold employee_id.
case_bool_decide as Hm; simpl; [|right; left; by eexists].
case_bool_decide as Hd; [right; left; by eexists|].
destruct (render_side env "front" _) as [e|f] eqn:Ef;
  [right; left; by eexists|].
destruct (render_side env "back" _) as [e|b] eqn:Eb.
- right. right. by exists e, f.
- left. by exists f, b.
Qed.

Lemma generate_badge_saved_name env side data sup file drawn :
  generate_badge env side data sup = Saved file drawn →
  output_name side data = Some file.
Proof.
intros (data' & Hname & Hr)%generate_badge_saved.
apply render_saved in Hr as (_ & _ & _ & Hout & _).
by rewrite <- (output_name_handle_name side _ _ Hname).
Qed.

Lemma render_side_name env side data file :
  render_side env side (Some data) = inr file →
  output_name side data = Some file.
Proof.
unfold render_side.
destruct (generate_badge env side data true) as [f drawn| |] eqn:E; [|done..].
intros [= <-]. by eapply generate_badge_saved_name.
Qed.

(** X10. A row that renders writes its two badges under the names
    [badge_front_{n}.png] and [badge_back_{n}.png], where [n] is the
    normalized employee number of the row, sanitized, provided the preset
    sets no [id] of its own. *)
Theorem X10_batch_file_names env p dups index row files
    front_preset back_preset :
  p !! "front" = Some front_preset →
  p !! "back" = Some back_preset →
  front_preset !! "id" = None →
  back_preset !! "id" = None →
  process_row env p dups index row = ([], files) →
  let n := sanitize_filename (normalize (str (row "Employee Number"))) in
  files = ["badge_front_" +:+ n +:+ ".png"; "badge_back_" +:+ n +:+ ".png"].
Proof.
intros Hfront Hback Hfid Hbid Hrow n.
destruct (process_row_shape env p dups index row)
  as [(f & b & E & _ & _ & Hf & Hb)|[(e & E)|(e & f & E & _)]];
  rewrite E in Hrow; try done.
injection Hrow as <-.
unfold front_data in Hf. unfold back_data in Hb.
rewrite Hfront in Hf. rewrite Hback in Hb. simpl in Hf, Hb.
apply render_side_name in Hf, Hb.
rewrite (output_name_numbered _ _ (normalize (str (row "Employee Number"))))
  in Hf by by rewrite get_update_other by done.
rewrite (output_name_numbered _ _ (normalize (str (row "Employee Number"))))
  in Hb by by rewrite get_update_other by done.
by injection Hf as <-; injection Hb as <-.
Qed.

Lemma X10_batch_file_names_witness :
  process_row sample_env sample_preset [] 0
    (sample_row "Li Wei" "Wei Li" " A/17 ")
  = ([], ["badge_front_A_17.png"; "badge_back_A_17.png"]).
Proof.
destruct (process_row sample_env sample_preset [] 0
            (sample_row "Li Wei" "Wei Li" " A/17 ")) as [errs files] eqn:E.
assert (errs = []) as -> by (vm_compute in E; by injection E as <- _).
rewrite (X10_batch_file_names sample_env sample_preset [] 0 _ files
           (sample_side "front.png") (sample_side "back.png")
           eq_refl eq_refl eq_refl eq_refl E).
by vm_compute.
Defined.

Lemma length_join_le {A} (k : nat) (ls : list (list A)) :
  Forall (λ l, (length l ≤ k)%nat) ls → (length (mjoin ls) ≤ k * length ls)%nat.
Proof.
induction 1 as [|l ls Hl _ IH]; [simpl; lia|].
csimpl. rewrite length_app. lia.
Qed.

Lemma length_join_eq {A} (k : nat) (ls : list (list A)) :
  Forall (λ l, length l = k) ls → length (mjoin ls) = k * length ls.
Proof.
induction 1 as [|l ls Hl _ IH]; [simpl; lia|].
csimpl. rewrite length_app. lia.
Qed.

(** X11. Whatever the sheet, a run logs at most one entry for each row
    besides the summary line of the duplicates, and writes at most two
    badge files for each row. *)
Theorem X11_batch_bounds env presets preset_name path df :
  let o := task env presets preset_name path df in
  (length (logged o) ≤ length (rows df) + 1)%nat
  ∧ (length (rendered o) ≤ 2 * length (rows df))%nat.
Proof.
intros o. unfold o.
destruct (decide (missing_columns df = [])) as [Hcols|Hcols];
  [|unfold task; rewrite bool_decide_false by done; simpl; lia].
destruct (presets !! preset_name) as [p|] eqn:Hp;
  [|unfold task; rewrite Hcols, Hp; simpl; lia].
destruct (task_logged env presets preset_name path df p Hcols Hp) as [-> ->].
rewrite length_app. split.
- assert (length (mjoin ((imap (process_row env p (duplicates df))
                               (rows df)).*1))
          ≤ 1 * length (rows df))%nat as H.
  { etrans; [apply length_join_le|by rewrite length_fmap, length_imap].
    apply Forall_forall. intros l (r & -> & Hr)%list_elem_of_fmap.
    apply elem_of_lookup_imap in Hr as (i & row & -> & _).
    destruct (process_row_shape env p (duplicates df) i row)
      as [(f & b & -> & _)|[(e & ->)|(e & f & -> & _)]]; simpl; lia. }
  case_bool_decide; simpl; lia.
- etrans; [apply length_join_le|by rewrite length_fmap, length_imap].
  apply Forall_forall. intros l (r & -> & Hr)%list_elem_of_fmap.
  apply elem_of_lookup_imap in Hr as (i & row & -> & _).
  destruct (process_row_shape env p (duplicates df) i row)
    as [(f & b & -> & _)|[(e & ->)|(e & f & -> & _)]]; simpl; lia.
Qed.

(** X12. A run reports success only when nothing at all went wrong: the
    sheet has every column, no employee number occurs twice, no row lacks
    a field, and every row has rendered both its badges, so that twice as
    many files are written as the sheet has rows. *)
Theorem X12_success_means_all_rendered env presets preset_name path df :
  log (task env presets preset_name path df) = None →
  let o := task env presets preset_name path df in
  notice o = ShowInfo success_message
  ∧ missing_columns df = []
  ∧ duplicates df = []
  ∧ length (rendered o) = 2 * length (rows df)
  ∧ ∀ index row, rows df !! index = Some row →
      missing_fields row = []
      ∧ ∃ p f b, presets !! preset_name = Some p
                 ∧ process_row env p [] index row = ([], [f; b]).
Proof.
intros Hlog o.
destruct (decide (missing_columns df = [])) as [Hcols|Hcols];
  [|unfold task in Hlog; by rewrite bool_decide_false in Hlog by done].
destruct (presets !! preset_name) as [p|] eqn:Hp;
  [|unfold task in Hlog; by rewrite Hcols, Hp in Hlog].
destruct (task_logged env presets preset_name path df p Hcols Hp)
  as [Hlogged Hrendered].
assert (notice o = ShowInfo success_message) as Hnotice.
{ revert Hlog. unfold o, task. rewrite Hcols, Hp. simpl.
  match goal with
  | |- context [bool_decide (?a ++ ?b = [])] =>
      by destruct (bool_decide (a ++ b = []))
  end. }
unfold logged in Hlogged. rewrite Hlog in Hlogged. simpl in Hlogged.
symmetry in Hlogged. apply app_eq_nil in Hlogged as [Hdups Hrows].
assert (duplicates df = []) as Hnodup by (by case_bool_decide).
rewrite Hnodup in *.
assert (∀ index row, rows df !! index = Some row →
          missing_fields row = []
          ∧ ∃ f b, process_row env p [] index row = ([], [f; b])) as Hall.
{ intros index row Hrow.
  assert ((process_row env p [] index row).1 = []) as Hfst.
  { apply join_nil in Hrows. rewrite Forall_forall in Hrows. apply Hrows.
    apply list_elem_of_fmap. eexists. split; [done|].
    apply elem_of_lookup_imap. by exists index, row. }
  destruct (process_row_shape env p [] index row)
    as [(f & b & E & Hm & _)|[(e & E)|(e & f & E & _)]];
    rewrite E in Hfst; try done.
  split; [done|]. by exists f, b. }
split_and!; [done..| |].
- unfold o. rewrite Hrendered.
  etrans; [apply (length_join_eq 2)|by rewrite length_fmap, length_imap].
  apply Forall_forall. intros l (r & -> & Hr)%list_elem_of_fmap.
  apply elem_of_lookup_imap in Hr as (i & row & -> & Hrow).
  by destruct (Hall i row Hrow) as (_ & f & b & ->).
- intros index row Hrow. destruct (Hall index row Hrow) as (Hm & f & b & E).
  split; [done|]. by exists p, f, b.
Qed.

Lemma X12_success_means_all_rendered_witness :
  rendered (task sample_env sample_presets "default" "log.txt" sample_clean)
  = ["badge_front_1023.png"; "badge_back_1023.png";
     "badge_front_1024.png"; "badge_back_1024.png"]
  ∧ notice (task sample_env sample_presets "default" "log.txt" sample_clean)
    = ShowInfo success_message.
Proof.
pose proof (X12_success_means_all_rendered sample_env sample_presets
              "default" "log.txt" sample_clean) as H.
destruct H as (H & _); [by vm_compute|].
split; [by vm_compute|exact H].
Defined.

(** X13. A run ends in exactly one of two ways: no error log is written
    and the success notice is queued, or an error log with at least one
    entry is written and an error notice is queued. An empty log is never
    written. *)
Theorem X13_success_or_error_log env presets preset_name path df :
  let o := task env presets preset_name path df in
  (log o = None ∧ notice o = ShowInfo success_message)
  ∨ (∃ errors text, log o = Some errors ∧ errors ≠ []
                    ∧ notice o = ShowError text).
Proof.
intros o. unfold o, task.
case_bool_decide; simpl; [|right; by eexists _, _].
destruct (presets !! preset_name); [|right; by eexists _, _].
case_bool_decide; simpl; [by left|right; by eexists _, _].
Qed.

End batch_more.

(** ** The duplicate check *)

Section duplicates_more.
Import Py PyFacts.

Lemma NoDup_unique_from seen l : NoDup (unique_from seen l).
Proof.
revert seen. induction l as [|x l IH]; intros seen; simpl; [constructor|].
case_bool_decide; [done|]. constructor; [|done].
rewrite elem_of_unique_from. intros [_ Hx]. apply Hx. by left.
Qed.

(** X14. The list of duplicates computed before the rows are processed
    holds exactly the trimmed employee numbers that occur in more than one
    row, each of them once; a missing number counts as the text [nan]. *)
Theorem X14_duplicates_are_the_repeated_numbers df :
  (∀ x, x ∈ duplicates df
        ↔ (1 < length (filter (λ y, y = x) (employee_numbers df)))%nat)
  ∧ NoDup (duplicates df)
  ∧ employee_numbers df
    = (λ row : Row, strip (match row "Employee Number" with
                           | NaN => "nan"
                           | Value text => text
                           end)) <$> rows df.
Proof.
split_and!.
- apply elem_of_duplicates.
- apply NoDup_unique_from.
- done.
Qed.

(** X15. Of two rows with the same trimmed employee number, a complete
    row whose number [clean_employee_id] leaves as it is (it does not end
    in [.0] after digits) is turned away with the duplicate message for
    that number, and renders nothing. *)
Theorem X15_duplicate_row_rejected env p df i j row other :
  i ≠ j →
  rows df !! i = Some row →
  rows df !! j = Some other →
  strip (str (row "Employee Number")) = strip (str (other "Employee Number")) →
  clean_employee_id (strip (str (row "Employee Number")))
  = strip (str (row "Employee Number")) →
  missing_fields row = [] →
  process_row env p (duplicates df) i row
  = ([Line (duplicated_message i (strip (str (row "Employee Number"))))], []).
Proof.
intros Hij Hi Hj Hsame Hclean Hm.
rewrite process_row_duplicated; [by unfold normalize; rewrite Hclean|done|].
unfold normalize. rewrite Hclean. apply elem_of_duplicates.
assert (employee_numbers df !! i = Some (strip (str (row "Employee Number"))))
  as Ei.
{ unfold employee_numbers. rewrite list_lookup_fmap.
  by rewrite (Hi : @lookup nat Row (list Row) _ i (rows df) = Some row). }
assert (employee_numbers df !! j = Some (strip (str (row "Employee Number"))))
  as Ej.
{ unfold employee_numbers. rewrite list_lookup_fmap.
  rewrite (Hj : @lookup nat Row (list Row) _ j (rows df) = Some other).
  simpl. by rewrite Hsame. }
destruct (decide (i < j)%nat).
- by eapply (twice_in_list _ i j).
- eapply (twice_in_list _ j i); [lia|done..].
Qed.

Lemma X15_duplicate_row_rejected_witness :
  process_row sample_env sample_preset (duplicates sample_plain) 1
    (sample_row "Zhang San" "San Zhang" " 1023 ")
  = ([Line "Row 3: Employee Number '1023' is duplicated."], []).
Proof.
rewrite (X15_duplicate_row_rejected sample_env sample_preset sample_plain 1 0
           (sample_row "Zhang San" "San Zhang" " 1023 ")
           (sample_row "Li Wei" "Wei Li" "1023")); by vm_compute.
Defined.

End duplicates_more.

(** ** More on the PDF compositor *)

Section compositor_more.
Import Py PyFacts.

Lemma files_with_prefix_filter prefix (keep : string → Prop)
    `{!∀ f, Decision (keep f)} files :
  (∀ f, startswith f prefix = true → keep f) →
  files_with_prefix prefix (filter keep files) = files_with_prefix prefix files.
Proof.
intros Hkeep. unfold files_with_prefix. f_equal.
rewrite list_filter_filter. apply list_filter_iff. naive_solver.
Qed.

Lemma files_with_prefix_perm prefix files files' :
  files ≡ₚ files' →
  files_with_prefix prefix files = files_with_prefix prefix files'.
Proof.
intros Hperm. unfold files_with_prefix.
apply (Sorted_unique String.le); [apply (Sorted_merge_sort _)..|].
by rewrite !merge_sort_Permutation, Hperm.
Qed.

(** X16. Files of the folder that start with neither prefix have no
    effect on the document. A folder with no badge file at all is not an
    error: the document is written with no page. *)
Theorem X16_other_files_are_ignored env cfg files :
  let is_badge f :=
    startswith f (badge_front_prefix cfg) = true
    ∨ startswith f (badge_back_prefix cfg) = true in
  generate_badge_pdf env cfg (Some (filter is_badge files))
  = generate_badge_pdf env cfg (Some files)
  ∧ (filter is_badge files = [] →
     generate_badge_pdf env cfg (Some files)
     = if pdf_output env (output_pdf cfg) then inr []
       else inl (SaveFailed (output_pdf cfg))).
Proof.
intros is_badge.
assert (generate_badge_pdf env cfg (Some (filter is_badge files))
        = generate_badge_pdf env cfg (Some files)) as Hsame.
{ unfold generate_badge_pdf.
  rewrite !(files_with_prefix_filter _ is_badge); [done|..];
    unfold is_badge; tauto. }
split; [done|]. intros Hnone. rewrite <- Hsame, Hnone.
unfold generate_badge_pdf, files_with_prefix, all_keys.
rewrite !filter_nil. simpl merge_sort. unfold files_dict. simpl foldl.
rewrite dom_empty_L, (left_id_L ∅ (∪)), elements_empty. done.
Qed.

(** X17. The document does not depend on the order in which the folder
    is listed. *)
Theorem X17_listing_order_is_irrelevant env cfg files files' :
  files ≡ₚ files' →
  generate_badge_pdf env cfg (Some files)
  = generate_badge_pdf env cfg (Some files').
Proof.
intros Hperm. unfold generate_badge_pdf.
by rewrite !(files_with_prefix_perm _ files files' Hperm).
Qed.

Lemma X17_listing_order_is_irrelevant_witness :
  generate_badge_pdf sample_pdf_env sample_config
    (Some ["badge_back_7.png"; "notes.txt"; "badge_front_7.png"])
  = generate_badge_pdf sample_pdf_env sample_config
      (Some ["badge_front_7.png"; "badge_back_7.png"; "notes.txt"]).
Proof.
apply X17_listing_order_is_irrelevant.
etrans; [apply perm_skip, perm_swap|apply perm_swap].
Defined.

Lemma sequence_inl {E A} (l : list (E + A)) e :
  inl e ∈ l → ∃ e', sequence l = inl e'.
Proof.
induction l as [|[e0|a] l IH]; intros Hin.
- by apply elem_of_nil in Hin.
- simpl. eauto.
- apply elem_of_cons in Hin as [?|Hin]; [done|].
  destruct (IH Hin) as [e' He']. simpl. rewrite He'. eauto.
Qed.

Lemma page_slots_lookup keys i key :
  keys !! i = Some key → (i mod 3, key) ∈ page_slots keys (i / 3 * 3).
Proof.
intros Hi. rewrite page_slots_take. apply list_elem_of_lookup.
exists (i mod 3). rewrite list_lookup_imap.
pose proof (Nat.mod_upper_bound i 3) as Hlt.
rewrite lookup_take_lt by lia. rewrite lookup_drop.
replace (i / 3 * 3 + i mod 3) with i
  by (rewrite (Nat.div_mod_eq i 3) at 1; lia).
by rewrite Hi.
Qed.

Lemma page_index_bound n i : (i < n → i / 3 < (n + 3 - 1) / 3)%nat.
Proof.
intros Hi.
assert (i / 3 + 1 ≤ (n + 3 - 1) / 3)%nat; [|lia].
replace (i / 3 + 1) with ((i + 1 * 3) / 3) by (by rewrite Nat.div_add).
apply Nat.Div0.div_le_mono. lia.
Qed.

(** X18. One image that cannot be placed stops the whole document: when
    the placement of any key fails, the function fails and no document
    comes out, whatever the other keys are. *)
Theorem X18_one_failure_aborts_the_document env cfg files i key e :
  let fd := files_dict (badge_front_prefix cfg)
              (files_with_prefix (badge_front_prefix cfg) files) in
  let bd := files_dict (badge_back_prefix cfg)
              (files_with_prefix (badge_back_prefix cfg) files) in
  all_keys fd bd !! i = Some key →
  place_key env cfg fd bd (i mod 3) key = inl e →
  ∃ e', generate_badge_pdf env cfg (Some files) = inl e'.
Proof.
intros fd bd Hi Hfail. unfold generate_badge_pdf. fold fd bd.
set (keys := all_keys fd bd) in *.
assert (∃ e1, make_page env cfg fd bd keys (i / 3 * 3) = inl e1) as [e1 He1].
{ unfold make_page.
  destruct (sequence_inl
              ((λ '(j, key), place_key env cfg fd bd j key)
               <$> page_slots keys (i / 3 * 3)) e) as [e1 ->]; [|by eauto].
  apply list_elem_of_fmap. exists (i mod 3, key).
  split; [done|]. by apply page_slots_lookup. }
destruct (sequence_inl
            (make_page env cfg fd bd keys <$> range_step (length keys) 3) e1)
  as [e2 ->]; [|by eauto].
apply list_elem_of_fmap. exists (i / 3 * 3). split; [done|].
apply list_elem_of_lookup. exists (i / 3).
apply lookup_range_step, page_index_bound. by apply lookup_lt_Some in Hi.
Qed.

End compositor_more.

Section compositor_pages.
Import Py PyFacts.

Lemma X18_one_failure_aborts_the_document_witness :
  ∃ e, generate_badge_pdf broken_pdf_env sample_config
         (Some ["badge_front_1.png"; "badge_front_2.png"; "badge_back_2.png"])
       = inl e.
Proof.
apply (X18_one_failure_aborts_the_document broken_pdf_env sample_config
         ["badge_front_1.png"; "badge_front_2.png"; "badge_back_2.png"]
         1 "2" (BackInsertFailed "badge_back_2.png")); by vm_compute.
Defined.

Lemma found_Some (d : gmap string string) key f :
  found d key = Some f → d !! key = Some f.
Proof.
unfold found. destruct (d !! key) as [g|]; [|done].
destruct (String.eqb g ""); [done|]. by intros [= <-].
Qed.

(** What [place_key] places for a key: at most two images, all in the
    slot of the key, each the file its dictionary holds for the key. *)
Lemma place_key_placed env cfg (fd bd : gmap string string) j key placed :
  place_key env cfg fd bd j key = inr placed →
  (length placed ≤ 2)%nat
  ∧ ∀ pl, pl ∈ placed →
          pl_x pl = x_pos cfg j
          ∧ (fd !! key = Some (pl_file pl) ∨ bd !! key = Some (pl_file pl)).
Proof.
unfold place_key.
destruct (found fd key) as [front|] eqn:Ef, (found bd key) as [back|] eqn:Eb;
  try apply found_Some in Ef; try apply found_Some in Eb.
- destruct (insert_image env front _ _) as [pf|] eqn:If; [|done].
  destruct (insert_image env back _ _) as [pb|] eqn:Ib; [|done].
  apply insert_image_spec in If as (Hf & Hx & _).
  apply insert_image_spec in Ib as (Hb & Hx' & _).
  intros [= <-]. split; [simpl; lia|].
  intros pl [->|[->|[]%elem_of_nil]%elem_of_cons]%elem_of_cons;
    split; try done; [left|right]; congruence.
- destruct (insert_image env front _ _) as [pf|] eqn:If; [|done].
  apply insert_image_spec in If as (Hf & Hx & _).
  intros [= <-]. split; [simpl; lia|].
  intros pl [->|[]%elem_of_nil]%elem_of_cons. split; [done|left; congruence].
- destruct (insert_image env back _ _) as [pb|] eqn:Ib; [|done].
  apply insert_image_spec in Ib as (Hb & Hx & _).
  intros [= <-]. split; [simpl; lia|].
  intros pl [->|[]%elem_of_nil]%elem_of_cons. split; [done|right; congruence].
- intros [= <-]. split; [simpl; lia|]. by intros pl []%elem_of_nil.
Qed.

Lemma page_slots_bound keys i j key :
  (j, key) ∈ page_slots keys i → (j < 3)%nat.
Proof.
rewrite page_slots_take.
intros (k & y & [= -> ->] & Hk)%elem_of_lookup_imap.
apply lookup_lt_Some in Hk. rewrite length_take in Hk. lia.
Qed.

Lemma fmap_inr_lookup {E A B} (f : B → E + A) (l : list B) (r : list A) x :
  f <$> l = inr <$> r → x ∈ r → ∃ y, y ∈ l ∧ f y = inr x.
Proof.
intros Heq (k & Hk)%list_elem_of_lookup.
pose proof (f_equal (λ l, l !! k) Heq) as Hlk. simpl in Hlk.
rewrite !list_lookup_fmap, Hk in Hlk. simpl in Hlk.
destruct (l !! k) as [y|] eqn:Hy; [|done]. injection Hlk as Hfy.
exists y. split; [|done]. apply list_elem_of_lookup. eauto.
Qed.

(** X19. In a document that is produced, a page holds at most six images;
    every image on it is a file of the folder that starts with the front
    or with the back prefix, and stands in one of the three slots of the
    page. *)
Theorem X19_pages_hold_listed_badges_in_slots env cfg files pages :
  generate_badge_pdf env cfg (Some files) = inr pages →
  ∀ page, page ∈ pages →
    (length page ≤ 6)%nat
    ∧ ∀ pl, pl ∈ page →
        pl_file pl ∈ files
        ∧ (startswith (pl_file pl) (badge_front_prefix cfg) = true
           ∨ startswith (pl_file pl) (badge_back_prefix cfg) = true)
        ∧ ∃ j, (j < 3)%nat ∧ pl_x pl = x_pos cfg j.
Proof.
intros Hdoc page Hpage.
pose proof (generate_badge_pdf_pages env cfg files pages Hdoc) as Hpages.
cbv zeta in Hpages.
destruct (fmap_inr_lookup _ _ _ _ Hpages Hpage) as (i & _ & Hmake).
unfold make_page in Hmake.
destruct (sequence _) as [e|groups] eqn:Hseq; [done|].
injection Hmake as <-. apply sequence_inr in Hseq.
assert (∀ g, g ∈ groups →
          ∃ j key, (j < 3)%nat
                   ∧ place_key env cfg
                       (files_dict (badge_front_prefix cfg)
                          (files_with_prefix (badge_front_prefix cfg) files))
                       (files_dict (badge_back_prefix cfg)
                          (files_with_prefix (badge_back_prefix cfg) files))
                       j key = inr g) as Hgroup.
{ intros g Hg.
  destruct (fmap_inr_lookup _ _ _ _ Hseq Hg) as ([j key] & Hslot & Hplace).
  exists j, key. split; [by eapply page_slots_bound|done]. }
split.
- assert (length groups ≤ 3)%nat as Hlen.
  { pose proof (f_equal length Hseq) as E.
    rewrite !length_fmap, page_slots_take, length_imap, length_take in E.
    lia. }
  etrans; [apply (length_join_le 2)|lia].
  apply Forall_forall. intros g (j & key & _ & Hplace)%Hgroup.
  by apply place_key_placed in Hplace as [? _].
- intros pl (g & Hpl & Hg)%list_elem_of_join.
  destruct (Hgroup g Hg) as (j & key & Hj & Hplace).
  apply place_key_placed in Hplace as [_ Hplaced].
  destruct (Hplaced pl Hpl) as [Hx Hfile].
  split_and!; [| |by eauto].
  + destruct Hfile as [Hf|Hf];
      by apply files_dict_lookup, elem_of_files_with_prefix in Hf as [? _].
  + destruct Hfile as [Hf|Hf];
      apply files_dict_lookup, elem_of_files_with_prefix in Hf as [_ ?]; auto.
Qed.

Lemma X19_pages_hold_listed_badges_in_slots_witness :
  ∃ page,
    generate_badge_pdf sample_pdf_env sample_config
      (Some ["badge_front_1.png"; "notes.txt"; "badge_back_1.png"])
    = inr [page]
    ∧ (length page ≤ 6)%nat
    ∧ ∀ pl, pl ∈ page →
            pl_file pl
            ∈ ["badge_front_1.png"; "notes.txt"; "badge_back_1.png"].
Proof.
destruct (generate_badge_pdf sample_pdf_env sample_config
            (Some ["badge_front_1.png"; "notes.txt"; "badge_back_1.png"]))
  as [e|pages] eqn:E; [by vm_compute in E|].
destruct pages as [|page [|]]; try by vm_compute in E.
exists page. split; [done|].
destruct (X19_pages_hold_listed_badges_in_slots _ _ _ _ E page) as [Hlen Hpl];
  [by left|].
split; [done|]. intros pl Hin. by destruct (Hpl pl Hin) as [? _].
Defined.

End compositor_pages.

Section compositor_pair.
Import Py PyFacts.

Lemma png_name_not_empty prefix key :
  String.eqb (prefix +:+ key +:+ ".png") "" = false.
Proof. by destruct prefix, key. Qed.

Lemma found_insert key file :
  String.eqb file "" = false →
  found (<[key := file]> (∅ : gmap string string)) key = Some file.
Proof. intros Hne. unfold found. by rewrite lookup_insert_eq, Hne. Qed.

(** X20. A folder that holds the front and the back image of one key,
    and nothing else with either prefix in front, gives a document of one
    page with both images in the first slot: the front at the top margin
    and the back below it, lower by the height of the front plus the row
    gap. *)
Theorem X20_front_and_back_on_one_page env cfg key pf pb :
  let front := badge_front_prefix cfg +:+ key +:+ ".png" in
  let back := badge_back_prefix cfg +:+ key +:+ ".png" in
  startswith back (badge_front_prefix cfg) = false →
  startswith front (badge_back_prefix cfg) = false →
  insert_image env front (x_pos cfg 0) (start_y_position cfg) = Some pf →
  insert_image env back (x_pos cfg 0)
    (start_y_position cfg + (pl_h pf + group_spacing_y cfg))%Q = Some pb →
  pdf_output env (output_pdf cfg) = true →
  generate_badge_pdf env cfg (Some [front; back]) = inr [[pf; pb]]
  ∧ generate_badge_pdf env cfg (Some [back; front]) = inr [[pf; pb]].
Proof.
intros front back Hbf Hfb Hpf Hpb Hout.
assert (files_with_prefix (badge_front_prefix cfg) [front; back] = [front])
  as Hfront.
{ unfold files_with_prefix.
  rewrite filter_cons_True by apply startswith_append.
  rewrite filter_cons_False by by rewrite Hbf. done. }
assert (files_with_prefix (badge_back_prefix cfg) [front; back] = [back])
  as Hback.
{ unfold files_with_prefix.
  rewrite filter_cons_False by by rewrite Hfb.
  rewrite filter_cons_True by apply startswith_append. done. }
assert (generate_badge_pdf env cfg (Some [front; back]) = inr [[pf; pb]])
  as Hdoc.
{ unfold generate_badge_pdf. rewrite Hfront, Hback.
  unfold files_dict. simpl foldl. unfold front, back.
  rewrite !join_key_append. fold front back.
  assert (all_keys (<[key := front]> ∅) (<[key := back]> ∅) = [key]) as ->.
  { unfold all_keys. rewrite !dom_insert_L, dom_empty_L.
    assert (({[key]} ∪ ∅) ∪ ({[key]} ∪ ∅) = ({[key]} : gset string)) as ->
      by set_solver.
    by rewrite elements_singleton. }
  change (range_step (length [key]) 3) with [0%nat].
  simpl fmap. unfold make_page.
  change (page_slots [key] 0) with [(0%nat, key)].
  simpl fmap. unfold place_key.
  rewrite !found_insert by apply png_name_not_empty.
  rewrite Hpf, Hpb. simpl. by rewrite Hout. }
split; [done|].
rewrite <- Hdoc. unfold generate_badge_pdf.
by rewrite !(files_with_prefix_perm _ [back; front] [front; back])
  by apply perm_swap.
Qed.

Lemma X20_front_and_back_on_one_page_witness :
  ∃ pf pb,
    generate_badge_pdf sample_pdf_env sample_config
      (Some ["badge_front_1023.png"; "badge_back_1023.png"])
    = inr [[pf; pb]]
    ∧ pl_file pf = "badge_front_1023.png"
    ∧ pl_file pb = "badge_back_1023.png"
    ∧ pl_x pf = pl_x pb.
Proof.
eexists _, _. split.
- apply (X20_front_and_back_on_one_page sample_pdf_env sample_config "1023");
    reflexivity.
- by vm_compute.
Defined.

End compositor_pair.
